(** * The chat endpoint of the Himalayan climate assistant

    A shallow embedding of [src/app/api/chat/route.ts]: the filename helper
    [createPdfFilename], the processing of the vector-index matches
    (relevance floor, text / figure partition, prompt context, source
    deduplication) and the [POST] handler with its three awaited service
    calls and its single [try]/[catch].

    Conventions of the embedding.
    - A JavaScript string is the list of its UTF-16 code units.
    - A JavaScript number that the code only compares (the relevance score,
      the sampling temperature) is a binary64 float, [PrimFloat.float].
    - A page number is an integer, as in the knowledge base; as a number
      of the program it is the nearest binary64 number, and a template
      literal renders it as Number::toString does.
    - The awaited services are functions from the argument of the call to
      its outcome (fulfilled with a value, or rejected); every call that is
      issued is appended to a call log, so that the absence of a call can be
      stated. *)

From Stdlib Require Import List ZArith NArith Bool Ascii String Floats Lia.
From Stdlib Require Import DecimalString Permutation Sorted.
Import ListNotations.

Set Warnings "-inexact-float".

Local Open Scope list_scope.

(** ** JavaScript strings *)

Definition code_unit : Type := N.
Definition jsstring : Type := list code_unit.

(** An ASCII literal of the source, as code units. *)
Definition lit (s : string) : jsstring :=
  map N_of_ascii (list_ascii_of_string s).
Arguments lit s%_string.

Definition LF : jsstring := [10%N].
Definition DQUOTE : jsstring := [34%N].

(** Strict equality [===] on strings. *)
Fixpoint str_eqb (a b : jsstring) : bool :=
  match a, b with
  | [], [] => true
  | x :: a', y :: b' => N.eqb x y && str_eqb a' b'
  | _, _ => false
  end.

(** Truthiness of a string: every string but the empty one. *)
Definition truthy_string (s : jsstring) : bool :=
  match s with [] => false | _ :: _ => true end.

(** Truthiness of an optional string ([undefined] is falsy). *)
Definition truthy (s : option jsstring) : bool :=
  match s with Some s' => truthy_string s' | None => false end.

(** [x || ''] on an optional string. *)
Definition or_empty (s : option jsstring) : jsstring :=
  match s with Some s' => s' | None => [] end.

(** [String.prototype.substring(start, end)] for non-negative integer
    arguments: both are clamped to the length and swapped when out of
    order. *)
Definition substring (s : jsstring) (start finish : nat) : jsstring :=
  let len := List.length s in
  let a := Nat.min start len in
  let b := Nat.min finish len in
  firstn (Nat.max a b - Nat.min a b) (skipn (Nat.min a b) s).

(** [Array.prototype.slice(start, end)]: a negative bound counts from the
    end, [end] defaults to the length. *)
Definition slice {A : Type} (l : list A) (start : Z) (finish : option Z)
  : list A :=
  let len := Z.of_nat (List.length l) in
  let rel i := if (i <? 0)%Z then Z.max (len + i) 0 else Z.min i len in
  let k := rel start in
  let final := match finish with Some e => rel e | None => len end in
  firstn (Z.to_nat (final - k)) (skipn (Z.to_nat k) l).

(** [Array.prototype.indexOf(x) === -1] on an array of strings. *)
Definition not_in_array (x : jsstring) (l : list jsstring) : bool :=
  negb (existsb (str_eqb x) l).

(** *** Numbers in template literals

    A page number is written in the metadata as an integer.  As a
    JavaScript number it is the binary64 number nearest to that integer,
    and a template literal renders it with Number::toString: the fewest
    significant digits that denote the number, padded with zeros below
    10^21 and in exponent form from 10^21 on. *)

(** The decimal notation of an integer. *)
Definition decimal (z : Z) : jsstring :=
  lit (NilEmpty.string_of_int (Z.to_int z)).

(** The Number value of a non-negative integer: the nearest binary64
    number, ties to the even significand; [None] stands for [Infinity]. *)
Definition to_binary64 (x : Z) : option Z :=
  let bits := (Z.log2 x + 1)%Z in
  if (bits <=? 53)%Z then Some x
  else
    let shift := (bits - 53)%Z in
    let q := Z.shiftr x shift in
    let r := (x - Z.shiftl q shift)%Z in
    let half := Z.shiftl 1 (shift - 1) in
    let q' :=
      if (half <? r)%Z || ((r =? half)%Z && Z.odd q) then (q + 1)%Z else q in
    let v := Z.shiftl q' shift in
    if (Z.shiftl 1 1024 <=? v)%Z then None else Some v.

(** The integer [x] denotes the number [v]. *)
Definition rounds_to (v x : Z) : bool :=
  match to_binary64 x with
  | Some v' => (v' =? v)%Z
  | None => false
  end.

(** The integer [s * 10^(n-k)] of Number::toString for the number [v] of
    [m] decimal digits: [s] has the fewest digits [k] for which the
    product denotes [v], and among such [s] the one whose product is
    closest to [v] (the even one when two are as close). *)
Fixpoint shortest_from (fuel : nat) (k m v : Z) : Z :=
  match fuel with
  | O => v
  | S fuel' =>
      if (m <=? k)%Z then v
      else
        let scale := (10 ^ (m - k))%Z in
        let lo := (v / scale * scale)%Z in
        let hi := (lo + scale)%Z in
        let lo_ok := rounds_to v lo && (0 <? lo)%Z in
        let hi_ok := rounds_to v hi in
        if lo_ok && hi_ok then
          if (v - lo <? hi - v)%Z then lo
          else if (hi - v <? v - lo)%Z then hi
          else if Z.even (lo / scale) then lo else hi
        else if lo_ok then lo
        else if hi_ok then hi
        else shortest_from fuel' (k + 1)%Z m v
  end.

Fixpoint strip_zeros (reversed_digits : jsstring) : jsstring :=
  match reversed_digits with
  | 48%N :: rest => strip_zeros rest
  | _ => reversed_digits
  end.

(** The exponent form [d.ddde+x] of an integer of 22 digits or more. *)
Definition exponent_form (w : Z) : jsstring :=
  let ds := decimal w in
  let n := Z.of_nat (List.length ds) in
  match rev (strip_zeros (rev ds)) with
  | [] => ds
  | d :: [] => d :: lit "e+" ++ decimal (n - 1)%Z
  | d :: more => d :: lit "." ++ more ++ lit "e+" ++ decimal (n - 1)%Z
  end.

Definition render_magnitude (x : Z) : jsstring :=
  match to_binary64 x with
  | None => lit "Infinity"
  | Some v =>
      if (Z.log2 v + 1 <=? 53)%Z then decimal v
      else
        let m := Z.of_nat (List.length (decimal v)) in
        let w := shortest_from 17 1 m v in
        if (w <? 10 ^ 21)%Z then decimal w else exponent_form w
  end.

(** Rendering of an integer-valued number inside a template literal. *)
Definition number_to_string (z : Z) : jsstring :=
  if (z <? 0)%Z then lit "-" ++ render_magnitude (- z)
  else render_magnitude z.

(** *** Character classes of the two regular expressions *)

Definition in_range (lo hi c : N) : bool := (lo <=? c)%N && (c <=? hi)%N.

Definition is_lower (c : code_unit) : bool := in_range 97 122 c.
Definition is_upper (c : code_unit) : bool := in_range 65 90 c.
Definition is_digit (c : code_unit) : bool := in_range 48 57 c.
Definition is_hyphen (c : code_unit) : bool := (c =? 45)%N.
Definition is_underscore (c : code_unit) : bool := (c =? 95)%N.
Definition UNDERSCORE : code_unit := 95%N.

(** The class [\s] of a JavaScript regular expression without the [u]
    flag: the WhiteSpace and LineTerminator code points. *)
Definition is_whitespace (c : code_unit) : bool :=
  in_range 9 13 c            (* TAB, LF, VT, FF, CR *)
  || (c =? 32)%N             (* SPACE *)
  || (c =? 160)%N            (* NO-BREAK SPACE *)
  || (c =? 5760)%N           (* OGHAM SPACE MARK *)
  || in_range 8192 8202 c    (* EN QUAD .. HAIR SPACE *)
  || (c =? 8232)%N           (* LINE SEPARATOR *)
  || (c =? 8233)%N           (* PARAGRAPH SEPARATOR *)
  || (c =? 8239)%N           (* NARROW NO-BREAK SPACE *)
  || (c =? 8287)%N           (* MEDIUM MATHEMATICAL SPACE *)
  || (c =? 12288)%N          (* IDEOGRAPHIC SPACE *)
  || (c =? 65279)%N.         (* ZERO WIDTH NO-BREAK SPACE *)

(** The class [[a-zA-Z0-9\s-]]; the first [replace] deletes its
    complement. *)
Definition is_kept (c : code_unit) : bool :=
  is_lower c || is_upper c || is_digit c || is_whitespace c || is_hyphen c.

(** The class [[A-Za-z0-9_-]] of a derived filename. *)
Definition is_filename_char (c : code_unit) : bool :=
  is_upper c || is_lower c || is_digit c || is_underscore c || is_hyphen c.

(** ** [createPdfFilename] *)

(** [.replace(/[^a-zA-Z0-9\s-]/g, '')]: every code unit outside the class
    is a match of length one and is replaced by the empty string. *)
Definition remove_special_chars (s : jsstring) : jsstring :=
  filter is_kept s.

(** [.replace(/\s+/g, '_')]: the scan from left to right; [in_run] tells
    that the previous code unit belonged to the match being consumed, which
    the greedy [\s+] extends as far as whitespace goes. *)
Fixpoint spaces_to_underscores_from (in_run : bool) (s : jsstring)
  : jsstring :=
  match s with
  | [] => []
  | c :: s' =>
      if is_whitespace c then
        if in_run then spaces_to_underscores_from true s'
        else UNDERSCORE :: spaces_to_underscores_from true s'
      else c :: spaces_to_underscores_from false s'
  end.

Definition spaces_to_underscores (s : jsstring) : jsstring :=
  spaces_to_underscores_from false s.

Definition createPdfFilename (paperTitle : jsstring) : jsstring :=
  substring (spaces_to_underscores (remove_special_chars paperTitle)) 0 80
  ++ lit ".pdf".

(** The words of the specification for the second replacement: each
    maximal run of whitespace becomes one underscore, everything else is
    copied. *)
Definition starts_without_whitespace (s : jsstring) : Prop :=
  match s with [] => True | c :: _ => is_whitespace c = false end.

Inductive RunsReplaced : jsstring -> jsstring -> Prop :=
| RunsReplaced_nil : RunsReplaced [] []
| RunsReplaced_copy c s r :
    is_whitespace c = false ->
    RunsReplaced s r ->
    RunsReplaced (c :: s) (c :: r)
| RunsReplaced_run run s r :
    run <> [] ->
    Forall (fun c => is_whitespace c = true) run ->
    starts_without_whitespace s ->
    RunsReplaced s r ->
    RunsReplaced (run ++ s) (UNDERSCORE :: r).

(** ** Ordinary objects used as string-keyed maps

    [sourceMap] is an object literal [{}] indexed by paper titles.  Its own
    properties are kept in creation order; a read that finds no own
    property continues in [Object.prototype]. *)

Definition jsobject (V : Type) : Type := list (jsstring * V).

(** The property names that every ordinary object inherits from
    [Object.prototype]; each of them reads as a function or, for
    [__proto__], as the prototype object: a truthy value. *)
Definition object_prototype_names : list jsstring :=
  [ lit "constructor"; lit "__defineGetter__"; lit "__defineSetter__";
    lit "hasOwnProperty"; lit "__lookupGetter__"; lit "__lookupSetter__";
    lit "isPrototypeOf"; lit "propertyIsEnumerable"; lit "toString";
    lit "valueOf"; lit "__proto__"; lit "toLocaleString" ].

Definition inherited (k : jsstring) : bool :=
  existsb (str_eqb k) object_prototype_names.

Fixpoint own_property {V : Type} (o : jsobject V) (k : jsstring)
  : option V :=
  match o with
  | [] => None
  | (k', v) :: o' => if str_eqb k k' then Some v else own_property o' k
  end.

(** Truthiness of [o[k]] when the own values of [o] are objects. *)
Definition has_truthy {V : Type} (o : jsobject V) (k : jsstring) : bool :=
  match own_property o k with
  | Some _ => true
  | None => inherited k
  end.

(** [o[k] = v]: an existing own property keeps its place, a new one is
    created last.  (The callers below assign a key only after [o[k]] read
    falsy, so the accessor [__proto__] is never assigned.) *)
Fixpoint set_property {V : Type} (o : jsobject V) (k : jsstring) (v : V)
  : jsobject V :=
  match o with
  | [] => [(k, v)]
  | (k', v') :: o' =>
      if str_eqb k k' then (k, v) :: o'
      else (k', v') :: set_property o' k v
  end.

(** A key is an array index when it is the canonical decimal notation of
    an integer between 0 and 2^32 - 2. *)
Fixpoint digits_value (acc : N) (s : jsstring) : option N :=
  match s with
  | [] => Some acc
  | c :: s' =>
      if is_digit c then digits_value (acc * 10 + (c - 48)) s' else None
  end.

Definition array_index (k : jsstring) : option N :=
  match k with
  | [] => None
  | c :: rest =>
      if (c =? 48)%N && truthy_string rest then None
      else
        match digits_value 0 k with
        | Some n => if (n <=? 4294967294)%N then Some n else None
        | None => None
        end
  end.

Fixpoint insert_by_index {X : Type} (x : N * X) (l : list (N * X))
  : list (N * X) :=
  match l with
  | [] => [x]
  | y :: l' =>
      if (fst x <=? fst y)%N then x :: l else y :: insert_by_index x l'
  end.

Definition sort_by_index {X : Type} (l : list (N * X)) : list (N * X) :=
  fold_right insert_by_index [] l.

(** [Object.keys(o)]: the array indices in ascending order, then the other
    keys in creation order. *)
Definition Object_keys {V : Type} (o : jsobject V) : list jsstring :=
  let ks := map fst o in
  let indices :=
    flat_map (fun k => match array_index k with
                       | Some n => [(n, k)]
                       | None => []
                       end) ks in
  let names :=
    filter (fun k => match array_index k with
                     | Some _ => false
                     | None => true
                     end) ks in
  map snd (sort_by_index indices) ++ names.

(** ** Numbers that are compared *)

(** Truthiness of a number: everything but [0], [-0] and [NaN]. *)
Definition truthy_number (x : float) : bool :=
  negb (PrimFloat.is_zero x || PrimFloat.is_nan x).

(** [x || 0] on an optional number. *)
Definition or_zero (x : option float) : float :=
  match x with
  | Some s => if truthy_number s then s else 0%float
  | None => 0%float
  end.

(** ** Types of [route.ts] *)

Module Metadata.
Record t : Type := mk {
  content_type : jsstring;
  paper_title : jsstring;
  page_number : Z;
  content : jsstring;
  image_url : option jsstring;
  paper_id : option jsstring
}.
End Metadata.

Module PineconeMatch.
Record t : Type := mk {
  id : jsstring;
  score : option float;
  metadata : option Metadata.t
}.
End PineconeMatch.

Module ContextItem.
Record t : Type := mk {
  type : jsstring;
  content : jsstring;
  source : jsstring;
  page : Z;
  imageUrl : option jsstring;
  score : float
}.
End ContextItem.

(** An entry of the [sources] array of the response. *)
Module SourceEntry.
Record t : Type := mk {
  title : jsstring;
  page : Z;
  pdfFile : jsstring
}.
End SourceEntry.

(** An entry of the [images] array of the response. *)
Module ImageEntry.
Record t : Type := mk {
  url : option jsstring;
  source : jsstring;
  page : Z;
  description : jsstring;
  pdfFile : jsstring;
  score : float
}.
End ImageEntry.

(** A turn of the [chatHistory] of the request body. *)
Module HistoryTurn.
Record t : Type := mk {
  role : jsstring;
  content : jsstring
}.
End HistoryTurn.

(** [OpenAI.ChatCompletionMessageParam]. *)
Module ChatMessage.
Record t : Type := mk {
  role : jsstring;
  content : jsstring
}.
End ChatMessage.

(** ** Step 3: processing of the search results *)

Definition relevance_floor : float := 0.3%float.

(** The predicate of the first [filter]:
    [match.metadata && (match.score || 0) > 0.3]. *)
Definition passes_floor (m : PineconeMatch.t) : bool :=
  match PineconeMatch.metadata m with
  | Some _ => (relevance_floor <? or_zero (PineconeMatch.score m))%float
  | None => false
  end.

(** The object built by the [map] that follows, from a match and the
    metadata that the filter has found present. *)
Definition to_context_item (m : PineconeMatch.t) (md : Metadata.t)
  : ContextItem.t :=
  {| ContextItem.type := Metadata.content_type md;
     ContextItem.content := Metadata.content md;
     ContextItem.source := Metadata.paper_title md;
     ContextItem.page := Metadata.page_number md;
     ContextItem.imageUrl := Metadata.image_url md;
     ContextItem.score := or_zero (PineconeMatch.score m) |}.

(** [matches.filter(...).map(...)].  The [map] dereferences
    [match.metadata!], which is present on every match the filter keeps. *)
Fixpoint contextItems (matches : list PineconeMatch.t)
  : list ContextItem.t :=
  match matches with
  | [] => []
  | m :: rest =>
      if passes_floor m then
        match PineconeMatch.metadata m with
        | Some md => to_context_item m md :: contextItems rest
        | None => contextItems rest
        end
      else contextItems rest
  end.

Definition is_text (item : ContextItem.t) : bool :=
  str_eqb (ContextItem.type item) (lit "text").

Definition is_image_with_url (item : ContextItem.t) : bool :=
  str_eqb (ContextItem.type item) (lit "image")
  && truthy (ContextItem.imageUrl item).

Definition textResults (items : list ContextItem.t) : list ContextItem.t :=
  filter is_text items.

Definition imageResults (items : list ContextItem.t) : list ContextItem.t :=
  filter is_image_with_url items.

(** [uniquePapers] (it only feeds [paperMapping], which nothing reads). *)
Definition uniquePapers (items : list ContextItem.t) : list jsstring :=
  fold_left
    (fun acc item =>
       if not_in_array (ContextItem.source item) acc
       then acc ++ [ContextItem.source item]
       else acc)
    items [].

(** The two template literals appended by the [forEach] loops. *)
Definition text_block (item : ContextItem.t) : jsstring :=
  lit "[Paper: " ++ DQUOTE ++ ContextItem.source item ++ DQUOTE
  ++ lit ", Page " ++ number_to_string (ContextItem.page item) ++ lit "]"
  ++ LF ++ ContextItem.content item ++ LF ++ LF.

Definition figure_block (item : ContextItem.t) : jsstring :=
  lit "[Figure from: " ++ DQUOTE ++ ContextItem.source item ++ DQUOTE
  ++ lit ", Page " ++ number_to_string (ContextItem.page item) ++ lit "]"
  ++ LF ++ lit "Figure Description: " ++ ContextItem.content item
  ++ LF ++ LF.

Definition text_heading : jsstring :=
  lit "### Relevant Text from Research Papers:" ++ LF ++ LF.

Definition figures_heading : jsstring :=
  lit "### Relevant Figures/Charts Available:" ++ LF ++ LF.

(** [contextString], built by [+=] in two guarded loops. *)
Definition contextString (texts images : list ContextItem.t) : jsstring :=
  let s0 : jsstring := [] in
  let s1 :=
    match texts with
    | [] => s0
    | _ :: _ =>
        fold_left (fun s item => s ++ text_block item) texts
                  (s0 ++ text_heading)
    end in
  match images with
  | [] => s1
  | _ :: _ =>
      fold_left (fun s item => s ++ figure_block item) images
                (s1 ++ figures_heading)
  end.

(** ** Sources and images of the response *)

Definition source_entry (t : ContextItem.t) : SourceEntry.t :=
  {| SourceEntry.title := ContextItem.source t;
     SourceEntry.page := ContextItem.page t;
     SourceEntry.pdfFile := createPdfFilename (ContextItem.source t) |}.

(** [sourceMap], filled by the loop over [textResults]. *)
Definition sourceMap (texts : list ContextItem.t)
  : jsobject SourceEntry.t :=
  fold_left
    (fun o t =>
       if negb (has_truthy o (ContextItem.source t))
       then set_property o (ContextItem.source t) (source_entry t)
       else o)
    texts [].

(** [sources], filled by the loop over [Object.keys(sourceMap)]. *)
Definition sources (texts : list ContextItem.t) : list SourceEntry.t :=
  let o := sourceMap texts in
  flat_map
    (fun key => match own_property o key with
                | Some entry => [entry]
                | None => []
                end)
    (Object_keys o).

Definition image_entry (img : ContextItem.t) : ImageEntry.t :=
  {| ImageEntry.url := ContextItem.imageUrl img;
     ImageEntry.source := ContextItem.source img;
     ImageEntry.page := ContextItem.page img;
     ImageEntry.description := ContextItem.content img;
     ImageEntry.pdfFile := createPdfFilename (ContextItem.source img);
     ImageEntry.score := ContextItem.score img |}.

(** The [images] and [sources] fields of the success response. *)
Definition response_images (matches : list PineconeMatch.t)
  : list ImageEntry.t :=
  map image_entry
      (slice (imageResults (contextItems matches)) 0 (Some 4%Z)).

Definition response_sources (matches : list PineconeMatch.t)
  : list SourceEntry.t :=
  slice (sources (textResults (contextItems matches))) 0 (Some 6%Z).

(** ** The awaited services and the request *)

(** Outcome of an awaited promise. *)
Inductive outcome (A : Type) : Type :=
| Fulfilled (a : A)
| Rejected.
Arguments Fulfilled {A} a.
Arguments Rejected {A}.

Module EmbeddingItem.
Record t : Type := mk { embedding : list float }.
End EmbeddingItem.

Module EmbeddingResponse.
Record t : Type := mk { data : list EmbeddingItem.t }.
End EmbeddingResponse.

Module QueryResponse.
Record t : Type := mk { matches : option (list PineconeMatch.t) }.
End QueryResponse.

(** A choice of a completion; [content] is [choice.message.content], which
    may be [null]. *)
Module Choice.
Record t : Type := mk { content : option jsstring }.
End Choice.

Module ChatCompletion.
Record t : Type := mk { choices : list Choice.t }.
End ChatCompletion.

(** The three services, each as the outcome of a call on its argument. *)
Module Services.
Record t : Type := mk {
  embeddings_create : jsstring -> outcome EmbeddingResponse.t;
  index_query : list float -> outcome QueryResponse.t;
  chat_completions_create : list ChatMessage.t -> outcome ChatCompletion.t
}.
End Services.

(** The calls that reach a service, with the arguments the handler
    passes. *)
Inductive Call : Type :=
| EmbeddingsCreate (model input : jsstring) (dimensions : Z)
| IndexQuery (vector : list float) (topK : Z) (includeMetadata : bool)
| ChatCompletionsCreate (model : jsstring) (messages : list ChatMessage.t)
    (temperature : float) (max_tokens : Z).

(** The JSON body of a request, as the handler destructures it. *)
Module Body.
Record t : Type := mk {
  message : option jsstring;
  chatHistory : option (list HistoryTurn.t)
}.
End Body.

(** A request: [request.json()] is fulfilled with the parsed body or
    rejected (malformed JSON). *)
Module Request.
Record t : Type := mk { json : outcome Body.t }.
End Request.

Inductive ResponseBody : Type :=
| ErrorBody (error : jsstring)
| ChatBody (message : jsstring) (images : list ImageEntry.t)
    (sources : list SourceEntry.t).

(** [NextResponse.json(body, { status })]. *)
Module Response.
Record t : Type := mk { body : ResponseBody; status : Z }.
End Response.

(** ** Exceptions and the call log *)

Inductive exn : Type :=
| PromiseRejected
| TypeError.

Inductive completion (A : Type) : Type :=
| Normal (a : A)
| Throw (e : exn).
Arguments Normal {A} a.
Arguments Throw {A} e.

(** A computation of the handler: it extends the log of service calls and
    completes normally or abruptly. *)
Definition M (A : Type) : Type := list Call -> completion A * list Call.

Definition ret {A : Type} (a : A) : M A := fun log => (Normal a, log).

Definition throw {A : Type} (e : exn) : M A := fun log => (Throw e, log).

Definition bind {A B : Type} (m : M A) (k : A -> M B) : M B :=
  fun log =>
    match m log with
    | (Normal a, log') => k a log'
    | (Throw e, log') => (Throw e, log')
    end.

Definition try_catch {A : Type} (m : M A) (handler : exn -> M A) : M A :=
  fun log =>
    match m log with
    | (Normal a, log') => (Normal a, log')
    | (Throw e, log') => handler e log'
    end.

(** [await] of a promise that no service backs. *)
Definition await {A : Type} (o : outcome A) : M A :=
  match o with
  | Fulfilled a => ret a
  | Rejected => throw PromiseRejected
  end.

(** [await] of a service call: the call is logged, then it settles. *)
Definition await_call {A : Type} (c : Call) (o : outcome A) : M A :=
  fun log => await o (log ++ [c]).

(** [xs[0].field]: reading a field of [undefined] throws. *)
Definition first_element {A : Type} (xs : list A) : M A :=
  match xs with
  | x :: _ => ret x
  | [] => throw TypeError
  end.

Declare Scope handler_scope.
Delimit Scope handler_scope with handler.
Notation "x <- m ;; k" := (bind m (fun x => k))
  (at level 100, m at next level, right associativity) : handler_scope.

(** ** Step 4: the conversation *)

Definition join_lines (lines : list jsstring) : jsstring :=
  match lines with
  | [] => []
  | l :: rest => fold_left (fun s x => s ++ LF ++ x) rest l
  end.

Definition systemPrompt : jsstring :=
  join_lines
    [ lit "You are an expert research assistant specializing in Himalayan climate, glaciology, hydrology, and environmental science. You answer questions using a comprehensive knowledge base of peer-reviewed research papers.";
      [];
      lit "IMPORTANT INSTRUCTIONS FOR CITATIONS:";
      lit "1. When citing information, ALWAYS use the EXACT full paper title provided in the context.";
      lit "2. Format citations as: (Paper: " ++ DQUOTE
        ++ lit "Full Paper Title" ++ DQUOTE ++ lit ", Page X).";
      lit "3. NEVER use generic references like " ++ DQUOTE
        ++ lit "Source 1" ++ DQUOTE ++ lit " or " ++ DQUOTE
        ++ lit "Source 8" ++ DQUOTE
        ++ lit " - always use the actual paper name.";
      lit "4. Be specific about which paper each piece of information comes from.";
      [];
      lit "IMPORTANT INSTRUCTIONS FOR FIGURES:";
      lit "1. When figures/charts are relevant to the answer, MENTION them explicitly.";
      lit "2. Say something like " ++ DQUOTE
        ++ lit "A relevant figure from [Paper Name] on page X illustrates this..."
        ++ DQUOTE ++ lit ".";
      lit "3. Describe what the figure shows if the description is helpful.";
      [];
      lit "Your role:";
      lit "- Answer questions accurately using ONLY the provided context.";
      lit "- Cite specific papers by their FULL TITLE and page numbers.";
      lit "- Explain complex concepts clearly while maintaining scientific accuracy.";
      lit "- If the context doesn't contain enough information, acknowledge this honestly.";
      lit "- When relevant figures exist, reference them to support your answer.";
      [];
      lit "Remember: Users will see the actual images, so describe what they show and why they're relevant." ].

(** The object built for a turn of the history: its [role] and its
    [content], as they are. *)
Definition history_message (msg : HistoryTurn.t) : ChatMessage.t :=
  {| ChatMessage.role := HistoryTurn.role msg;
     ChatMessage.content := HistoryTurn.content msg |}.

Definition user_content (context message : jsstring) : jsstring :=
  lit "Research Context:" ++ LF ++ context ++ LF ++ LF
  ++ lit "User Question: " ++ message ++ LF ++ LF
  ++ lit "Answer the user's question using only the research context above. If relevant figures are available, mention them in your response.".

Definition messages (chatHistory : list HistoryTurn.t)
  (context message : jsstring) : list ChatMessage.t :=
  [ {| ChatMessage.role := lit "system";
       ChatMessage.content := systemPrompt |} ]
  ++ map history_message (slice chatHistory (-6) None)
  ++ [ {| ChatMessage.role := lit "user";
          ChatMessage.content := user_content context message |} ].

(** ** The handler *)

Definition json_response (body : ResponseBody) (status : Z) : Response.t :=
  {| Response.body := body; Response.status := status |}.

Definition bad_request : Response.t :=
  json_response (ErrorBody (lit "Message is required")) 400.

Definition server_error : Response.t :=
  json_response
    (ErrorBody (lit "Failed to process your request. Please try again."))
    500.

(** [chatHistory = []] in the destructuring of the body: the default
    stands for an absent field. *)
Definition history_of (body : Body.t) : list HistoryTurn.t :=
  match Body.chatHistory body with Some h => h | None => [] end.

Local Open Scope handler_scope.

(** The body of the [try] block. *)
Definition POST_try (svc : Services.t) (request : Request.t)
  : M Response.t :=
  body <- await (Request.json request) ;;
  let message := Body.message body in
  let chatHistory := history_of body in
  if negb (truthy message) then ret bad_request
  else
    let message := or_empty message in
    (* Step 1 *)
    embeddingResponse <-
      await_call (EmbeddingsCreate (lit "text-embedding-3-small") message 1536)
                 (Services.embeddings_create svc message) ;;
    item <- first_element (EmbeddingResponse.data embeddingResponse) ;;
    let queryEmbedding := EmbeddingItem.embedding item in
    (* Step 2 *)
    searchResults <-
      await_call (IndexQuery queryEmbedding 12 true)
                 (Services.index_query svc queryEmbedding) ;;
    (* Step 3 *)
    let matches :=
      match QueryResponse.matches searchResults with
      | Some ms => ms
      | None => []
      end in
    let items := contextItems matches in
    let context := contextString (textResults items) (imageResults items) in
    (* Step 4 *)
    let conversation := messages chatHistory context message in
    completion <-
      await_call (ChatCompletionsCreate (lit "gpt-4o") conversation
                                        0.7%float 1500)
                 (Services.chat_completions_create svc conversation) ;;
    choice <- first_element (ChatCompletion.choices completion) ;;
    let assistantMessage := or_empty (Choice.content choice) in
    ret (json_response
           (ChatBody assistantMessage
                     (response_images matches)
                     (response_sources matches))
           200).

(** [POST]: the [try] block and its [catch], which answers every
    exception alike (after writing it to the server console). *)
Definition POST (svc : Services.t) (request : Request.t) : M Response.t :=
  try_catch (POST_try svc request) (fun _ => ret server_error).

Local Close Scope handler_scope.

(** A request served from an empty call log: the response, if the handler
    completes normally, and the calls it made. *)
Definition serve (svc : Services.t) (request : Request.t)
  : completion Response.t * list Call :=
  POST svc request [].

Definition response_of (r : completion Response.t * list Call)
  : option Response.t :=
  match fst r with Normal resp => Some resp | Throw _ => None end.

Definition calls_of (r : completion Response.t * list Call) : list Call :=
  snd r.

(** ** Vocabulary of the properties *)

Definition metadata_absent (m : PineconeMatch.t) : bool :=
  match PineconeMatch.metadata m with Some _ => false | None => true end.

Definition score_absent (m : PineconeMatch.t) : bool :=
  match PineconeMatch.score m with Some _ => false | None => true end.

(** The number [x], taken exactly, is at most 3/10: a finite positive
    binary64 number is [m * 2^e], and [m * 2^e <= 3/10] is compared after
    clearing the denominators. *)
Definition at_most_three_tenths (x : float) : bool :=
  match Prim2SF x with
  | S754_zero _ => true
  | S754_infinity negative => negative
  | S754_nan => false
  | S754_finite true _ _ => true
  | S754_finite false m e =>
      (10 * Z.pos m * 2 ^ Z.max e 0 <=? 3 * 2 ^ Z.max (- e) 0)%Z
  end.

(** The match carries a score, and it is at most 0.30. *)
Definition score_at_most_floor (m : PineconeMatch.t) : bool :=
  match PineconeMatch.score m with
  | Some s => at_most_three_tenths s
  | None => false
  end.

Definition below_floor (m : PineconeMatch.t) : bool :=
  metadata_absent m || score_at_most_floor m.

(** A match of kind image whose image URL is missing or empty. *)
Definition image_without_url (m : PineconeMatch.t) : bool :=
  match PineconeMatch.metadata m with
  | Some md =>
      str_eqb (Metadata.content_type md) (lit "image")
      && negb (truthy (Metadata.image_url md))
  | None => false
  end.

(** The matches that do not satisfy [p], in their order. *)
Definition without (p : PineconeMatch.t -> bool)
  (ms : list PineconeMatch.t) : list PineconeMatch.t :=
  filter (fun m => negb (p m)) ms.

(** The services, with the matches that satisfy [p] withheld from every
    answer of the index. *)
Definition withhold (p : PineconeMatch.t -> bool) (svc : Services.t)
  : Services.t :=
  {| Services.embeddings_create := Services.embeddings_create svc;
     Services.index_query := fun vector =>
       match Services.index_query svc vector with
       | Fulfilled r =>
           Fulfilled
             {| QueryResponse.matches :=
                  option_map (without p) (QueryResponse.matches r) |}
       | Rejected => Rejected
       end;
     Services.chat_completions_create :=
       Services.chat_completions_create svc |}.

(** The matches on which the handler works, when it gets that far: the
    body parses, the message is truthy, the embedding call and the index
    query are fulfilled. *)
Definition retrieved (svc : Services.t) (request : Request.t)
  : option (list PineconeMatch.t) :=
  match Request.json request with
  | Fulfilled body =>
      if truthy (Body.message body) then
        match Services.embeddings_create svc (or_empty (Body.message body)) with
        | Fulfilled {| EmbeddingResponse.data := item :: _ |} =>
            match Services.index_query svc (EmbeddingItem.embedding item) with
            | Fulfilled r =>
                Some (match QueryResponse.matches r with
                      | Some ms => ms
                      | None => []
                      end)
            | Rejected => None
            end
        | _ => None
        end
      else None
  | Rejected => None
  end.

(** A match is inert when it yields neither a text item nor a figure. *)
Definition inert (p : PineconeMatch.t -> bool) : Prop :=
  forall m, p m = true ->
    textResults (contextItems [m]) = []
    /\ imageResults (contextItems [m]) = [].

(** The [images] and [sources] of a response; an error body has
    neither. *)
Definition images_of (resp : Response.t) : list ImageEntry.t :=
  match Response.body resp with
  | ChatBody _ imgs _ => imgs
  | ErrorBody _ => []
  end.

Definition sources_of (resp : Response.t) : list SourceEntry.t :=
  match Response.body resp with
  | ChatBody _ _ srcs => srcs
  | ErrorBody _ => []
  end.

(** The service rejects the call [c]. *)
Definition is_rejected {A : Type} (o : outcome A) : bool :=
  match o with Rejected => true | Fulfilled _ => false end.

Definition call_rejected (svc : Services.t) (c : Call) : bool :=
  match c with
  | EmbeddingsCreate _ input _ =>
      is_rejected (Services.embeddings_create svc input)
  | IndexQuery vector _ _ =>
      is_rejected (Services.index_query svc vector)
  | ChatCompletionsCreate _ conversation _ _ =>
      is_rejected (Services.chat_completions_create svc conversation)
  end.

(** The words of the specification for the context: a section is its
    heading followed by its blocks, and is omitted when it has no block;
    the text items and the figures are the projections of the matches that
    qualify, in the order of the matches. *)
Definition context_section (heading : jsstring) (blocks : list jsstring)
  : jsstring :=
  match blocks with
  | [] => []
  | _ :: _ => heading ++ List.concat blocks
  end.

Definition items_where (qualifies : PineconeMatch.t -> Metadata.t -> bool)
  (ms : list PineconeMatch.t) : list ContextItem.t :=
  flat_map
    (fun m =>
       match PineconeMatch.metadata m with
       | Some md => if qualifies m md then [to_context_item m md] else []
       | None => []
       end)
    ms.

Definition text_items : list PineconeMatch.t -> list ContextItem.t :=
  items_where
    (fun m md =>
       passes_floor m && str_eqb (Metadata.content_type md) (lit "text")).

Definition figure_items : list PineconeMatch.t -> list ContextItem.t :=
  items_where
    (fun m md =>
       passes_floor m
       && (str_eqb (Metadata.content_type md) (lit "image")
           && truthy (Metadata.image_url md))).

Definition context_layout (ms : list PineconeMatch.t) : jsstring :=
  context_section text_heading (map text_block (text_items ms))
  ++ context_section figures_heading (map figure_block (figure_items ms)).

(** Services whose embedding call, index query or model call is
    rejected. *)
Definition reject_embedding (svc : Services.t) : Services.t :=
  {| Services.embeddings_create := fun _ => Rejected;
     Services.index_query := Services.index_query svc;
     Services.chat_completions_create :=
       Services.chat_completions_create svc |}.

Definition reject_query (svc : Services.t) : Services.t :=
  {| Services.embeddings_create := Services.embeddings_create svc;
     Services.index_query := fun _ => Rejected;
     Services.chat_completions_create :=
       Services.chat_completions_create svc |}.

Definition reject_completion (svc : Services.t) : Services.t :=
  {| Services.embeddings_create := Services.embeddings_create svc;
     Services.index_query := Services.index_query svc;
     Services.chat_completions_create := fun _ => Rejected |}.

(** The property that a text item creates in [sourceMap]. *)
Definition source_property (t : ContextItem.t) : jsstring * SourceEntry.t :=
  (ContextItem.source t, source_entry t).

(** The first-ranked text item of a title, and the number of sources
    that bear a title. *)
Definition first_with_title (title : jsstring) (texts : list ContextItem.t)
  : option ContextItem.t :=
  find (fun t => str_eqb (ContextItem.source t) title) texts.

Definition count_title (title : jsstring) (srcs : list SourceEntry.t)
  : nat :=
  List.length (filter (fun e => str_eqb (SourceEntry.title e) title) srcs).

(** The text items that create a property of [sourceMap]: the first of
    each title that is neither among the keys already [seen] nor the name
    of a property of [Object.prototype]. *)
Fixpoint first_by_title (seen : list jsstring) (texts : list ContextItem.t)
  : list ContextItem.t :=
  match texts with
  | [] => []
  | t :: rest =>
      if existsb (str_eqb (ContextItem.source t)) seen
         || inherited (ContextItem.source t)
      then first_by_title seen rest
      else t :: first_by_title (seen ++ [ContextItem.source t]) rest
  end.

(** ** A worked request

    The scenario of the specification: two passages of one paper (pages 5
    and 12, scores 0.81 and 0.45) and one figure with a URL (score 0.6),
    to which are added matches that the handler drops. *)

Definition make_match (id kind title : jsstring) (page : Z)
  (content : jsstring) (url : option jsstring) (score : option float)
  : PineconeMatch.t :=
  {| PineconeMatch.id := id;
     PineconeMatch.score := score;
     PineconeMatch.metadata :=
       Some {| Metadata.content_type := kind;
               Metadata.paper_title := title;
               Metadata.page_number := page;
               Metadata.content := content;
               Metadata.image_url := url;
               Metadata.paper_id := None |} |}.

Definition glof_title : jsstring := lit "Glacial Lake Outburst Floods".
Definition other_title : jsstring := lit "Monsoon Variability".

Definition passage_p5 : PineconeMatch.t :=
  make_match (lit "t1") (lit "text") glof_title 5
             (lit "Moraine dams fail.") None (Some 0.81%float).

Definition passage_p12 : PineconeMatch.t :=
  make_match (lit "t2") (lit "text") glof_title 12
             (lit "Ice avalanches trigger waves.") None (Some 0.45%float).

Definition figure_p7 : PineconeMatch.t :=
  make_match (lit "i1") (lit "image") glof_title 7
             (lit "Map of lakes.") (Some (lit "https://img/1.png"))
             (Some 0.6%float).

(** A passage scored exactly 0.3. *)
Definition passage_at_floor : PineconeMatch.t :=
  make_match (lit "t3") (lit "text") other_title 2
             (lit "Rainfall trends.") None (Some 0.3%float).

(** A passage without a score. *)
Definition passage_unscored : PineconeMatch.t :=
  make_match (lit "t4") (lit "text") other_title 3
             (lit "Seasonal cycle.") None None.

(** A match without metadata. *)
Definition match_bare : PineconeMatch.t :=
  {| PineconeMatch.id := lit "x1";
     PineconeMatch.score := Some 0.95%float;
     PineconeMatch.metadata := None |}.

(** A well-scored figure without a URL, and one with an empty URL. *)
Definition figure_no_url : PineconeMatch.t :=
  make_match (lit "i2") (lit "image") other_title 9
             (lit "Unlinked chart.") None (Some 0.9%float).

Definition figure_empty_url : PineconeMatch.t :=
  make_match (lit "i3") (lit "image") other_title 10
             (lit "Chart with an empty link.") (Some []) (Some 0.9%float).

Definition sample_matches : list PineconeMatch.t :=
  [ match_bare; passage_p5; figure_no_url; passage_at_floor; passage_p12;
    passage_unscored; figure_empty_url; figure_p7 ].

Definition sample_question : jsstring :=
  lit "What causes glacier lake outburst floods?".

Definition sample_answer : jsstring := lit "Moraine dam failure.".

Definition sample_services (ms : list PineconeMatch.t) : Services.t :=
  {| Services.embeddings_create := fun _ =>
       Fulfilled
         {| EmbeddingResponse.data :=
              [ {| EmbeddingItem.embedding := [0.5%float; 0.25%float] |} ] |};
     Services.index_query := fun _ =>
       Fulfilled {| QueryResponse.matches := Some ms |};
     Services.chat_completions_create := fun _ =>
       Fulfilled
         {| ChatCompletion.choices :=
              [ {| Choice.content := Some sample_answer |} ] |} |}.

Definition sample_turn (n : Z) : HistoryTurn.t :=
  {| HistoryTurn.role :=
       if Z.even n then lit "user" else lit "assistant";
     HistoryTurn.content := lit "turn " ++ number_to_string n |}.

Definition sample_history : list HistoryTurn.t :=
  map sample_turn [1; 2; 3; 4; 5; 6; 7; 8]%Z.

Definition sample_request (history : option (list HistoryTurn.t))
  : Request.t :=
  {| Request.json :=
       Fulfilled {| Body.message := Some sample_question;
                    Body.chatHistory := history |} |}.

(** The context item of the passage of page 5. *)
Definition passage_p5_item : ContextItem.t :=
  {| ContextItem.type := lit "text";
     ContextItem.content := lit "Moraine dams fail.";
     ContextItem.source := glof_title;
     ContextItem.page := 5;
     ContextItem.imageUrl := None;
     ContextItem.score := 0.81%float |}.

(** Seven passages of seven papers, all well scored. *)
Definition paper_passage (n : Z) : PineconeMatch.t :=
  make_match (lit "p" ++ number_to_string n) (lit "text")
             (lit "Paper " ++ number_to_string n) (10 + n)
             (lit "Passage.") None (Some 0.9%float).

Definition seven_papers : list PineconeMatch.t :=
  map paper_passage [1; 2; 3; 4; 5; 6; 7]%Z.

(** Passages whose titles are array indices or a name of
    [Object.prototype]. *)
Definition titled_passage (title : jsstring) (page : Z) : PineconeMatch.t :=
  make_match (lit "q") (lit "text") title page (lit "Passage.") None
             (Some 0.9%float).

Definition odd_titles : list PineconeMatch.t :=
  [ titled_passage (lit "Zebra") 1; titled_passage (lit "10") 2;
    titled_passage (lit "constructor") 3; titled_passage (lit "9") 4;
    titled_passage (lit "Zebra") 5; titled_passage (lit "007") 6 ].

(** ** Vocabulary of the further properties *)

(** The three calls, with the constants the handler passes. *)
Definition embedding_call (message : jsstring) : Call :=
  EmbeddingsCreate (lit "text-embedding-3-small") message 1536.

Definition query_call (vector : list float) : Call :=
  IndexQuery vector 12 true.

Definition completion_call (conversation : list ChatMessage.t) : Call :=
  ChatCompletionsCreate (lit "gpt-4o") conversation 0.7%float 1500.

(** The conversation built for a body and the matches retrieved. *)
Definition conversation_for (body : Body.t) (ms : list PineconeMatch.t)
  : list ChatMessage.t :=
  messages (history_of body)
           (contextString (textResults (contextItems ms))
                          (imageResults (contextItems ms)))
           (or_empty (Body.message body)).

(** A match with metadata whose kind is neither text nor image. *)
Definition other_kind (m : PineconeMatch.t) : bool :=
  match PineconeMatch.metadata m with
  | Some md =>
      negb (str_eqb (Metadata.content_type md) (lit "text"))
      && negb (str_eqb (Metadata.content_type md) (lit "image"))
  | None => false
  end.

(** No title of the items is an array index. *)
Definition no_index_title (texts : list ContextItem.t) : bool :=
  forallb
    (fun t => match array_index (ContextItem.source t) with
              | Some _ => false
              | None => true
              end)
    texts.

(** The title is an array index. *)
Definition is_index_title (k : jsstring) : bool :=
  match array_index k with Some _ => true | None => false end.

(** The order of tagged array indices. *)
Definition index_le (p q : N * jsstring) : Prop := (fst p <= fst q)%N.

(** An ASCII letter, a digit or a hyphen. *)
Definition is_plain (c : code_unit) : bool :=
  is_lower c || is_upper c || is_digit c || is_hyphen c.

(** Whether the scan of the second [replace] is inside a run of
    whitespace after reading [s], when it was ([in_run]) or was not before. *)
Definition in_run_after (in_run : bool) (s : jsstring) : bool :=
  fold_left (fun _ c => is_whitespace c) s in_run.

(** The string begins with an underscore. *)
Definition starts_with_underscore (s : jsstring) : bool :=
  match s with c :: _ => is_underscore c | [] => false end.

(** Two underscores follow each other somewhere in the string. *)
Fixpoint adjacent_underscores (s : jsstring) : bool :=
  match s with
  | c :: (d :: _) as rest =>
      (is_underscore c && is_underscore d) || adjacent_underscores rest
  | _ => false
  end.

(** Services whose answers are malformed or empty. *)
Definition empty_embedding (svc : Services.t) : Services.t :=
  {| Services.embeddings_create := fun _ =>
       Fulfilled {| EmbeddingResponse.data := [] |};
     Services.index_query := Services.index_query svc;
     Services.chat_completions_create :=
       Services.chat_completions_create svc |}.

Definition no_choices (svc : Services.t) : Services.t :=
  {| Services.embeddings_create := Services.embeddings_create svc;
     Services.index_query := Services.index_query svc;
     Services.chat_completions_create := fun _ =>
       Fulfilled {| ChatCompletion.choices := [] |} |}.

Definition null_content (svc : Services.t) : Services.t :=
  {| Services.embeddings_create := Services.embeddings_create svc;
     Services.index_query := Services.index_query svc;
     Services.chat_completions_create := fun _ =>
       Fulfilled
         {| ChatCompletion.choices :=
              [ {| Choice.content := None |};
                {| Choice.content := Some (lit "second choice") |} ] |} |}.

(** A figure of the second paper, with a URL; the paper has no passage
    among [figure_only_paper]. *)
Definition figure_other : PineconeMatch.t :=
  make_match (lit "i4") (lit "image") other_title 4
             (lit "Rainfall map.") (Some (lit "https://img/4.png"))
             (Some 0.7%float).

Definition figure_only_paper : list PineconeMatch.t :=
  [ passage_p5; figure_other ].

(** A match of kind table. *)
Definition table_match : PineconeMatch.t :=
  make_match (lit "k1") (lit "table") other_title 8
             (lit "Discharge by year.") None (Some 0.9%float).

(** * Properties *)

(** ** Strings and arrays *)

Lemma str_eqb_eq (a b : jsstring) : str_eqb a b = true <-> a = b.
Proof.
  revert b; induction a as [|x a IH]; intros [|y b]; simpl;
    try (split; [discriminate | discriminate]); try tauto.
  rewrite andb_true_iff, N.eqb_eq, IH.
  split; [intros [-> ->]; reflexivity | intros H; inversion H; auto].
Qed.

Lemma str_eqb_refl (a : jsstring) : str_eqb a a = true.
Proof. apply str_eqb_eq; reflexivity. Qed.

Lemma str_eqb_neq (a b : jsstring) : str_eqb a b = false <-> a <> b.
Proof.
  rewrite <- str_eqb_eq. destruct (str_eqb a b); split; congruence.
Qed.

Lemma str_eqb_sym (a b : jsstring) : str_eqb a b = str_eqb b a.
Proof.
  destruct (str_eqb b a) eqn:E.
  - apply str_eqb_eq in E; subst; apply str_eqb_refl.
  - apply str_eqb_neq; apply str_eqb_neq in E; congruence.
Qed.

Lemma firstn_min_length {A : Type} (n : nat) (l : list A) :
  firstn (Nat.min n (List.length l)) l = firstn n l.
Proof.
  destruct (Nat.le_ge_cases n (List.length l)) as [H|H].
  - rewrite Nat.min_l by assumption; reflexivity.
  - rewrite Nat.min_r by assumption.
    rewrite firstn_all, firstn_all2 by assumption; reflexivity.
Qed.

Lemma substring_from_0 (s : jsstring) (n : nat) :
  substring s 0 n = firstn n s.
Proof.
  unfold substring; simpl.
  rewrite Nat.sub_0_r. apply firstn_min_length.
Qed.

Lemma slice_from_0 {A : Type} (l : list A) (n : nat) :
  slice l 0 (Some (Z.of_nat n)) = firstn n l.
Proof.
  unfold slice.
  replace (0 <? 0)%Z with false by reflexivity.
  destruct (Z.of_nat n <? 0)%Z eqn:E; [apply Z.ltb_lt in E; lia|].
  rewrite (Z.min_l 0) by lia. simpl skipn. rewrite Z.sub_0_r.
  rewrite Z2Nat.inj_min, !Nat2Z.id. apply firstn_min_length.
Qed.

Lemma slice_last {A : Type} (l : list A) (n : nat) :
  0 < n ->
  slice l (- Z.of_nat n) None = skipn (List.length l - n) l.
Proof.
  intros Hn. unfold slice.
  destruct (- Z.of_nat n <? 0)%Z eqn:E; [|apply Z.ltb_ge in E; lia].
  set (len := List.length l).
  replace (Z.to_nat (Z.max (Z.of_nat len + - Z.of_nat n) 0)) with (len - n)
    by lia.
  apply firstn_all2. rewrite length_skipn. fold len. lia.
Qed.

Lemma In_firstn {A : Type} (n : nat) (l : list A) (x : A) :
  In x (firstn n l) -> In x l.
Proof.
  intros H. rewrite <- (firstn_skipn n l). apply in_or_app; auto.
Qed.

Lemma Forall_firstn {A : Type} (P : A -> Prop) (n : nat) (l : list A) :
  Forall P l -> Forall P (firstn n l).
Proof.
  rewrite !Forall_forall. intros H x Hx. eapply H, In_firstn, Hx.
Qed.

(** ** Claim C3: the derived filename *)

Section Filename.

Lemma kept_not_whitespace_is_filename_char (c : code_unit) :
  is_kept c = true -> is_whitespace c = false -> is_filename_char c = true.
Proof.
  unfold is_kept, is_filename_char. intros K W. rewrite W in K.
  destruct (is_lower c), (is_upper c), (is_digit c), (is_hyphen c);
    simpl in *; try reflexivity; try discriminate;
    rewrite ?orb_true_r; reflexivity.
Qed.

Lemma underscore_is_filename_char : is_filename_char UNDERSCORE = true.
Proof. reflexivity. Qed.

Lemma underscore_not_kept : is_kept UNDERSCORE = false.
Proof. reflexivity. Qed.

Lemma spaces_to_underscores_from_chars (b : bool) (s : jsstring) :
  Forall (fun c => is_kept c = true) s ->
  Forall (fun c => is_filename_char c = true)
         (spaces_to_underscores_from b s).
Proof.
  revert b; induction s as [|c s IH]; intros b H; simpl; [constructor|].
  inversion H as [|? ? Hc Hs]; subst.
  destruct (is_whitespace c) eqn:W.
  - destruct b; [apply IH; assumption|].
    constructor; [apply underscore_is_filename_char | apply IH; assumption].
  - constructor;
      [apply kept_not_whitespace_is_filename_char; assumption
      | apply IH; assumption].
Qed.

Lemma remove_special_chars_kept (s : jsstring) :
  Forall (fun c => is_kept c = true) (remove_special_chars s).
Proof.
  apply Forall_forall. intros c Hc.
  apply filter_In in Hc. tauto.
Qed.

(** Inside a run, whitespace is consumed without output. *)
Lemma spaces_from_true_skips_run (run s : jsstring) :
  Forall (fun c => is_whitespace c = true) run ->
  spaces_to_underscores_from true (run ++ s)
  = spaces_to_underscores_from true s.
Proof.
  induction 1 as [|c run Hc _ IH]; simpl; [reflexivity|].
  rewrite Hc; assumption.
Qed.

Lemma spaces_from_true_after_run (s : jsstring) :
  starts_without_whitespace s ->
  spaces_to_underscores_from true s = spaces_to_underscores_from false s.
Proof.
  destruct s as [|c s]; simpl; [reflexivity|].
  intros ->; reflexivity.
Qed.

(** The relation of the specification determines the result of the
    scan. *)
Lemma RunsReplaced_unique (s r : jsstring) :
  RunsReplaced s r -> r = spaces_to_underscores s.
Proof.
  unfold spaces_to_underscores.
  induction 1 as [|c s r Hc _ IH|run s r Hne Hrun Hs _ IH]; simpl.
  - reflexivity.
  - rewrite Hc, IH; reflexivity.
  - destruct run as [|c run]; [congruence|].
    inversion Hrun as [|? ? Hc Hrun']; subst. simpl. rewrite Hc.
    rewrite spaces_from_true_skips_run by assumption.
    rewrite spaces_from_true_after_run by assumption.
    reflexivity.
Qed.

(** The longest whitespace prefix of a string and what follows it. *)
Lemma whitespace_prefix (s : jsstring) :
  exists run rest,
    s = run ++ rest
    /\ Forall (fun c => is_whitespace c = true) run
    /\ starts_without_whitespace rest
    /\ List.length rest <= List.length s.
Proof.
  induction s as [|c s (run & rest & E & Hrun & Hrest & Hlen)].
  - exists [], []; simpl; auto.
  - destruct (is_whitespace c) eqn:W.
    + exists (c :: run), rest; subst s; simpl; repeat split; auto.
    + exists [], (c :: s); simpl; auto.
Qed.

(** The scan replaces each maximal run of whitespace by one underscore. *)
Lemma spaces_to_underscores_RunsReplaced (s : jsstring) :
  RunsReplaced s (spaces_to_underscores s).
Proof.
  unfold spaces_to_underscores.
  remember (List.length s) as n eqn:Hn.
  assert (Hle : List.length s <= n) by lia. clear Hn.
  revert s Hle; induction n as [|n IH]; intros s Hle.
  - destruct s; [constructor | simpl in Hle; lia].
  - destruct s as [|c s]; [constructor|]. simpl in Hle. simpl.
    destruct (is_whitespace c) eqn:W.
    + destruct (whitespace_prefix s) as (run & rest & E & Hrun & Hrest & Hl).
      subst s.
      rewrite spaces_from_true_skips_run by assumption.
      rewrite spaces_from_true_after_run by assumption.
      change (c :: run ++ rest) with ((c :: run) ++ rest).
      apply RunsReplaced_run; auto; [discriminate|].
      apply IH. lia.
    + apply RunsReplaced_copy; [assumption|]. apply IH. lia.
Qed.

(** C3. Filename derivation is a function of the title alone: identical
    titles give identical filenames.  The filename is obtained by deleting
    every code unit that is not an ASCII letter, a digit, whitespace or a
    hyphen, replacing each maximal run of whitespace by one underscore,
    keeping at most the first 80 code units and appending [.pdf]; the part
    before [.pdf] therefore matches [^[A-Za-z0-9_-]{0,80}$]. *)
Theorem createPdfFilename_spec (title title' : jsstring) :
  title' = title ->
  createPdfFilename title' = createPdfFilename title
  /\ exists replaced stem : jsstring,
       RunsReplaced (filter is_kept title) replaced
       /\ (forall r, RunsReplaced (filter is_kept title) r -> r = replaced)
       /\ stem = firstn 80 replaced
       /\ createPdfFilename title = stem ++ lit ".pdf"
       /\ List.length stem <= 80
       /\ Forall (fun c => is_filename_char c = true) stem.
Proof.
  intros ->. split; [reflexivity|].
  exists (spaces_to_underscores (remove_special_chars title)).
  exists (firstn 80 (spaces_to_underscores (remove_special_chars title))).
  repeat split.
  - apply spaces_to_underscores_RunsReplaced.
  - intros r Hr. apply RunsReplaced_unique; assumption.
  - unfold createPdfFilename. rewrite substring_from_0. reflexivity.
  - apply firstn_le_length.
  - apply Forall_firstn.
    apply spaces_to_underscores_from_chars, remove_special_chars_kept.
Qed.

(** The theorem at a title with punctuation, doubled blanks, a tab and a
    non-ASCII letter. *)
Lemma createPdfFilename_spec_witness :
  createPdfFilename (lit "Glacier  Lakes: a (2020) re-view" ++ [9; 233]%N)
  = createPdfFilename (lit "Glacier  Lakes: a (2020) re-view" ++ [9; 233]%N)
  /\ exists replaced stem : jsstring,
       RunsReplaced
         (filter is_kept (lit "Glacier  Lakes: a (2020) re-view" ++ [9; 233]%N))
         replaced
       /\ (forall r,
             RunsReplaced
               (filter is_kept
                  (lit "Glacier  Lakes: a (2020) re-view" ++ [9; 233]%N)) r ->
             r = replaced)
       /\ stem = firstn 80 replaced
       /\ createPdfFilename (lit "Glacier  Lakes: a (2020) re-view" ++ [9; 233]%N)
          = stem ++ lit ".pdf"
       /\ List.length stem <= 80
       /\ Forall (fun c => is_filename_char c = true) stem.
Proof.
  apply (createPdfFilename_spec
           (lit "Glacier  Lakes: a (2020) re-view" ++ [9; 233]%N)
           (lit "Glacier  Lakes: a (2020) re-view" ++ [9; 233]%N)).
  reflexivity.
Defined.

Example createPdfFilename_example :
  createPdfFilename (lit "Glacier  Lakes: a (2020) re-view" ++ [9; 233]%N)
  = lit "Glacier_Lakes_a_2020_re-view_.pdf".
Proof. reflexivity. Qed.

End Filename.

(** ** Comparison of binary64 numbers *)

Section FloatOrder.

Lemma SFcompare_antisym (x y : spec_float) :
  SFcompare y x = option_map CompOpp (SFcompare x y).
Proof.
  destruct x as [sx|sx| |sx mx ex], y as [sy|sy| |sy my ey]; simpl;
    try reflexivity;
    try (destruct sx; reflexivity); try (destruct sy; reflexivity);
    try (destruct sx, sy; reflexivity).
  f_equal.
  change (PosDef.Pos.compare_cont Eq my mx) with (Pos.compare my mx).
  change (PosDef.Pos.compare_cont Eq mx my) with (Pos.compare mx my).
  rewrite (Z.compare_antisym ex ey), (Pos.compare_antisym mx my).
  destruct sx, sy, (ex ?= ey)%Z, (mx ?= my)%positive; reflexivity.
Qed.

(** [x <= y] excludes [y < x]. *)
Lemma leb_not_ltb (x y : float) :
  (x <=? y)%float = true -> (y <? x)%float = false.
Proof.
  rewrite leb_spec, ltb_spec. unfold SFleb, SFltb.
  rewrite (SFcompare_antisym (Prim2SF x) (Prim2SF y)).
  destruct (SFcompare (Prim2SF x) (Prim2SF y)) as [[| |]|]; simpl;
    congruence.
Qed.

(** The literal [0.3] denotes the binary64 number nearest to 3/10, which
    lies below it; no binary64 number lies between the two, so that
    comparing with the literal is comparing with 3/10. *)
Lemma digits2_pos_bounds (m : positive) :
  (2 ^ (Z.pos (digits2_pos m) - 1) <= Z.pos m < 2 ^ Z.pos (digits2_pos m))%Z.
Proof.
  induction m as [m IH|m IH|]; simpl digits2_pos.
  - rewrite Pos2Z.inj_succ.
    replace (Z.succ (Z.pos (digits2_pos m)) - 1)%Z
      with (Z.succ (Z.pos (digits2_pos m) - 1))%Z by lia.
    rewrite !Z.pow_succ_r by lia. lia.
  - rewrite Pos2Z.inj_succ.
    replace (Z.succ (Z.pos (digits2_pos m)) - 1)%Z
      with (Z.succ (Z.pos (digits2_pos m) - 1))%Z by lia.
    rewrite !Z.pow_succ_r by lia. lia.
  - simpl. lia.
Qed.

Lemma relevance_floor_repr :
  Prim2SF relevance_floor = S754_finite false 5404319552844595 (-54).
Proof. vm_compute. reflexivity. Qed.


Lemma pow2_52 : (2 ^ 52 = 4503599627370496)%Z. Proof. reflexivity. Qed.
Lemma pow2_53 : (2 ^ 53 = 9007199254740992)%Z. Proof. reflexivity. Qed.
Lemma pow2_54 : (2 ^ 54 = 18014398509481984)%Z. Proof. reflexivity. Qed.
Lemma pow2_55 : (2 ^ 55 = 36028797018963968)%Z. Proof. reflexivity. Qed.

Lemma valid_finite_digits (m : positive) (e : Z) :
  valid_binary (S754_finite false m e) = true ->
  (Z.max (Z.pos (digits2_pos m) + e - 53) (-1074) = e)%Z.
Proof.
  unfold SpecFloat.valid_binary, bounded, canonical_mantissa, fexp.
  intros V. apply andb_true_iff in V. destruct V as [V _].
  apply Z.eqb_eq in V. exact V.
Qed.

Lemma compare_cont_Eq_spec (m k : positive) :
  CompareSpec (m = k) (m < k)%positive (k < m)%positive
              (PosDef.Pos.compare_cont Eq m k).
Proof. exact (Pos.compare_spec m k). Qed.

Lemma at_most_three_tenths_leb (x : float) :
  at_most_three_tenths x = (x <=? relevance_floor)%float.
Proof.
  rewrite leb_spec, relevance_floor_repr. unfold at_most_three_tenths, SFleb.
  pose proof (Prim2SF_valid x) as V.
  destruct (Prim2SF x) as [s|s| |s m e].
  - destruct s; reflexivity.
  - destruct s; reflexivity.
  - reflexivity.
  - destruct s; [reflexivity|].
    cbn [SFcompare].
    apply valid_finite_digits in V.
    pose proof (digits2_pos_bounds m) as [Lo Hi].
    remember (Z.pos (digits2_pos m)) as d eqn:Hd. clear Hd.
    destruct (Z.compare_spec e (-54)) as [E|E|E].
    + subst e. 
      change (Z.max (-54) 0) with 0%Z. change (Z.max (- -54) 0) with 54%Z.
      rewrite pow2_54, Z.pow_0_r.
      clear Lo Hi V.
      destruct (compare_cont_Eq_spec m 5404319552844595) as [H|H|H].
      * subst. reflexivity.
      * apply Z.leb_le. apply Pos2Z.pos_lt_pos in H. lia.
      * apply Z.leb_gt. apply Pos2Z.pos_lt_pos in H. lia.
    + apply Z.leb_le.
      rewrite (Z.max_r e 0), (Z.max_l (- e) 0) by lia.
      assert (d <= 53)%Z by lia.
      assert (Z.pos m < 2 ^ 53)%Z.
      { eapply Z.lt_le_trans; [exact Hi|]. apply Z.pow_le_mono_r; lia. }
      assert (2 ^ 55 <= 2 ^ (- e))%Z by (apply Z.pow_le_mono_r; lia).
      rewrite pow2_53 in *. rewrite pow2_55 in *. rewrite Z.pow_0_r.
      clear Lo Hi V. lia.
    + apply Z.leb_gt.
      assert (d = 53)%Z by lia.
      assert (2 ^ 52 <= Z.pos m)%Z.
      { replace 52%Z with (d - 1)%Z by lia. exact Lo. }
      rewrite pow2_52 in *.
      destruct (Z.le_gt_cases 0 e) as [P|P].
      * rewrite (Z.max_l e 0), (Z.max_r (- e) 0) by lia.
        rewrite Z.pow_0_r.
        assert (1 <= 2 ^ e)%Z by (apply (Z.pow_le_mono_r 2 0 e); lia).
        clear Lo V. nia.
      * rewrite (Z.max_r e 0), (Z.max_l (- e) 0) by lia.
        rewrite Z.pow_0_r.
        assert (2 ^ (- e) <= 2 ^ 53)%Z by (apply Z.pow_le_mono_r; lia).
        rewrite pow2_53 in *. clear Lo V. lia.
Qed.

(** Around the floor: 0.3 and 0.2 are at most 3/10, the next binary64
    number after 0.3 is not; neither is [NaN]. *)
Example at_most_three_tenths_sample :
  at_most_three_tenths 0.3%float = true
  /\ at_most_three_tenths 0.2%float = true
  /\ at_most_three_tenths (-1)%float = true
  /\ at_most_three_tenths 0x1.3333333333334p-2%float = false
  /\ at_most_three_tenths 0.81%float = false
  /\ at_most_three_tenths nan = false.
Proof. vm_compute. repeat split. Qed.

Lemma floor_not_below_zero : (relevance_floor <? 0)%float = false.
Proof. reflexivity. Qed.

End FloatOrder.

(** ** The relevance floor *)

Section Floor.

Lemma absent_score_fails (m : PineconeMatch.t) :
  score_absent m = true -> passes_floor m = false.
Proof.
  unfold score_absent, passes_floor.
  destruct (PineconeMatch.score m); [discriminate|]. intros _.
  destruct (PineconeMatch.metadata m); reflexivity.
Qed.

Lemma below_floor_fails (m : PineconeMatch.t) :
  below_floor m = true -> passes_floor m = false.
Proof.
  unfold below_floor, metadata_absent, score_at_most_floor, passes_floor.
  destruct (PineconeMatch.metadata m); [|reflexivity]. simpl.
  destruct (PineconeMatch.score m) as [s|]; [|discriminate].
  rewrite at_most_three_tenths_leb.
  intros H. simpl. destruct (truthy_number s).
  - apply leb_not_ltb; assumption.
  - apply floor_not_below_zero.
Qed.

Lemma contextItems_app (a b : list PineconeMatch.t) :
  contextItems (a ++ b) = contextItems a ++ contextItems b.
Proof.
  induction a as [|m a IH]; simpl; [reflexivity|].
  destruct (passes_floor m); [|assumption].
  destruct (PineconeMatch.metadata m); [|assumption].
  simpl; rewrite IH; reflexivity.
Qed.

(** Every context item is the projection of a match that has metadata and
    passes the floor; the items come in the order of the matches. *)
Lemma contextItems_origin (ms : list PineconeMatch.t) (item : ContextItem.t) :
  In item (contextItems ms) ->
  exists m md,
    In m ms /\ passes_floor m = true
    /\ PineconeMatch.metadata m = Some md
    /\ item = to_context_item m md.
Proof.
  induction ms as [|m ms IH]; simpl; [tauto|].
  destruct (passes_floor m) eqn:P.
  - destruct (PineconeMatch.metadata m) as [md|] eqn:E.
    + intros [<-|H].
      * exists m, md; auto.
      * destruct (IH H) as (m' & md' & ? & ? & ? & ?).
        exists m', md'; auto.
    + intros H. destruct (IH H) as (m' & md' & ? & ? & ? & ?).
      exists m', md'; auto.
  - intros H. destruct (IH H) as (m' & md' & ? & ? & ? & ?).
    exists m', md'; auto.
Qed.

Lemma textResults_app (a b : list ContextItem.t) :
  textResults (a ++ b) = textResults a ++ textResults b.
Proof. apply filter_app. Qed.

Lemma imageResults_app (a b : list ContextItem.t) :
  imageResults (a ++ b) = imageResults a ++ imageResults b.
Proof. apply filter_app. Qed.

Lemma withheld_inert (p : PineconeMatch.t -> bool)
  (ms : list PineconeMatch.t) :
  inert p ->
  textResults (contextItems (without p ms))
  = textResults (contextItems ms)
  /\ imageResults (contextItems (without p ms))
     = imageResults (contextItems ms).
Proof.
  unfold without. intros Hp. induction ms as [|m ms [IHt IHi]]; [split; reflexivity|].
  change (m :: ms) with ([m] ++ ms) at 2 4.
  rewrite contextItems_app, textResults_app, imageResults_app.
  simpl filter. destruct (p m) eqn:E; simpl negb; cbv iota.
  - destruct (Hp m E) as [-> ->]. simpl. auto.
  - change (m :: filter (fun m0 => negb (p m0)) ms)
      with ([m] ++ filter (fun m0 => negb (p m0)) ms).
    rewrite contextItems_app, textResults_app, imageResults_app.
    rewrite IHt, IHi. auto.
Qed.

Lemma failing_inert (p : PineconeMatch.t -> bool) :
  (forall m, p m = true -> passes_floor m = false) -> inert p.
Proof.
  intros H m Hm. simpl. rewrite (H m Hm). split; reflexivity.
Qed.

(** Withholding inert matches changes neither the response nor any call. *)
Lemma serve_withhold_inert (p : PineconeMatch.t -> bool)
  (svc : Services.t) (request : Request.t) :
  inert p -> serve (withhold p svc) request = serve svc request.
Proof.
  intros Hp. unfold serve, POST, try_catch, POST_try, bind, await_call.
  destruct (Request.json request) as [body|]; simpl; [|reflexivity].
  destruct (truthy (Body.message body)); simpl; [|reflexivity].
  destruct (Services.embeddings_create svc (or_empty (Body.message body)))
    as [[[|item data]]|]; simpl; try reflexivity.
  destruct (Services.index_query svc (EmbeddingItem.embedding item))
    as [[ms]|]; simpl; [|reflexivity].
  unfold response_images, response_sources.
  destruct ms as [ms|]; simpl option_map; cbv iota; [|reflexivity].
  destruct (withheld_inert p ms Hp) as [-> ->]. reflexivity.
Qed.

Lemma without_failing (p : PineconeMatch.t -> bool)
  (ms : list PineconeMatch.t) :
  (forall m, p m = true -> passes_floor m = false) ->
  contextItems (without p ms) = contextItems ms.
Proof.
  intros H. unfold without. induction ms as [|m ms IH]; [reflexivity|].
  simpl. destruct (p m) eqn:E; simpl.
  - rewrite (H m E). assumption.
  - rewrite IH. reflexivity.
Qed.

Lemma response_lists_inert (p : PineconeMatch.t -> bool)
  (ms : list PineconeMatch.t) :
  inert p ->
  contextString (textResults (contextItems (without p ms)))
                (imageResults (contextItems (without p ms)))
  = contextString (textResults (contextItems ms))
                  (imageResults (contextItems ms))
  /\ response_images (without p ms) = response_images ms
  /\ response_sources (without p ms) = response_sources ms.
Proof.
  intros Hp. unfold response_images, response_sources.
  destruct (withheld_inert p ms Hp) as [-> ->]. auto.
Qed.

(** C1. A match whose score is at most 0.30, or whose metadata is absent,
    contributes nothing: no context item is the projection of such a match,
    and with those matches withheld from the answer of the index the
    context string, the images, the sources, the response and the calls
    (hence the context sent to the model) are what they are with them. *)
Theorem below_floor_contributes_nothing
  (svc : Services.t) (request : Request.t) (ms : list PineconeMatch.t) :
  (forall item, In item (contextItems ms) ->
     exists m md,
       In m ms /\ below_floor m = false
       /\ PineconeMatch.metadata m = Some md
       /\ item = to_context_item m md)
  /\ contextItems (without below_floor ms) = contextItems ms
  /\ contextString (textResults (contextItems (without below_floor ms)))
                   (imageResults (contextItems (without below_floor ms)))
     = contextString (textResults (contextItems ms))
                     (imageResults (contextItems ms))
  /\ response_images (without below_floor ms) = response_images ms
  /\ response_sources (without below_floor ms) = response_sources ms
  /\ serve (withhold below_floor svc) request = serve svc request.
Proof.
  split; [|split; [|split; [|split; [|split]]]].
  - intros item H.
    destruct (contextItems_origin ms item H) as (m & md & Hin & Hp & Hmd & E).
    exists m, md. repeat split; auto.
    destruct (below_floor m) eqn:B; [|reflexivity].
    rewrite (below_floor_fails m B) in Hp. discriminate.
  - apply without_failing, below_floor_fails.
  - apply response_lists_inert, failing_inert, below_floor_fails.
  - apply response_lists_inert, failing_inert, below_floor_fails.
  - apply response_lists_inert, failing_inert, below_floor_fails.
  - apply serve_withhold_inert, failing_inert, below_floor_fails.
Qed.

(** The sample holds a match without metadata and a passage scored
    exactly 0.3; neither yields a context item. *)
Example below_floor_sample :
  below_floor match_bare = true
  /\ below_floor passage_at_floor = true
  /\ contextItems sample_matches
     = contextItems [ passage_p5; figure_no_url; passage_p12;
                      figure_empty_url; figure_p7 ].
Proof. vm_compute. repeat split. Qed.

(** C10. A match without a score is filtered as if its score were 0: it
    fails the floor whether or not it has metadata, no context item is the
    projection of such a match, and withholding such matches changes
    neither the context string, the images, the sources, the response nor
    the calls. *)
Theorem absent_score_discarded
  (svc : Services.t) (request : Request.t) (ms : list PineconeMatch.t) :
  (forall m, PineconeMatch.score m = None ->
     or_zero (PineconeMatch.score m) = 0%float /\ passes_floor m = false)
  /\ (forall item, In item (contextItems ms) ->
        exists m md,
          In m ms /\ score_absent m = false
          /\ PineconeMatch.metadata m = Some md
          /\ item = to_context_item m md)
  /\ contextItems (without score_absent ms) = contextItems ms
  /\ contextString (textResults (contextItems (without score_absent ms)))
                   (imageResults (contextItems (without score_absent ms)))
     = contextString (textResults (contextItems ms))
                     (imageResults (contextItems ms))
  /\ response_images (without score_absent ms) = response_images ms
  /\ response_sources (without score_absent ms) = response_sources ms
  /\ serve (withhold score_absent svc) request = serve svc request.
Proof.
  split; [|split; [|split; [|split; [|split; [|split]]]]].
  - intros m E. split; [rewrite E; reflexivity|].
    apply absent_score_fails. unfold score_absent. rewrite E. reflexivity.
  - intros item H.
    destruct (contextItems_origin ms item H) as (m & md & Hin & Hp & Hmd & E).
    exists m, md. repeat split; auto.
    destruct (score_absent m) eqn:B; [|reflexivity].
    rewrite (absent_score_fails m B) in Hp. discriminate.
  - apply without_failing, absent_score_fails.
  - apply response_lists_inert, failing_inert, absent_score_fails.
  - apply response_lists_inert, failing_inert, absent_score_fails.
  - apply response_lists_inert, failing_inert, absent_score_fails.
  - apply serve_withhold_inert, failing_inert, absent_score_fails.
Qed.

Example absent_score_sample :
  score_absent passage_unscored = true
  /\ metadata_absent passage_unscored = false
  /\ contextItems [passage_unscored] = [].
Proof. vm_compute. repeat split. Qed.

End Floor.

(** ** The handler, case by case *)

(** Unfolds the handler and splits on every promise it awaits and every
    array it indexes. *)
Ltac handler_step :=
  cbn beta iota zeta delta
    [fst snd app negb EmbeddingResponse.data EmbeddingItem.embedding
     QueryResponse.matches ChatCompletion.choices Choice.content].

Ltac run_handler :=
  unfold serve, POST, try_catch, POST_try, bind, await_call, await,
    first_element, ret, throw, response_of, calls_of;
  repeat match goal with
         | |- context [match ?x with _ => _ end] =>
             lazymatch x with
             | Request.json _ => destruct x as [?body|] eqn:?
             | Services.embeddings_create _ _ =>
                 destruct x as [[[|?item ?data]]|] eqn:?
             | Services.index_query _ _ => destruct x as [[?found]|] eqn:?
             | Services.chat_completions_create _ _ =>
                 destruct x as [[[|?choice ?choices]]|] eqn:?
             end; handler_step
         | |- context [if negb (truthy ?x) then _ else _] =>
             destruct (truthy x) eqn:?; handler_step
         end.

(** ** Claim C4: figures without a URL *)

Section Figures.

Lemma image_without_url_inert : inert image_without_url.
Proof.
  intros m. unfold image_without_url. simpl.
  destruct (passes_floor m); [|split; reflexivity].
  destruct (PineconeMatch.metadata m) as [md|]; [|discriminate].
  intros H. apply andb_true_iff in H. destruct H as [K U].
  unfold textResults, imageResults, is_text, is_image_with_url; simpl.
  apply str_eqb_eq in K. rewrite K.
  apply negb_true_iff in U. rewrite U. split; reflexivity.
Qed.

Lemma response_images_origin (ms : list PineconeMatch.t)
  (img : ImageEntry.t) :
  In img (response_images ms) ->
  exists m md u,
    In m ms /\ passes_floor m = true
    /\ PineconeMatch.metadata m = Some md
    /\ Metadata.content_type md = lit "image"
    /\ Metadata.image_url md = Some u /\ u <> []
    /\ img = image_entry (to_context_item m md).
Proof.
  unfold response_images.
  change (Some 4%Z) with (Some (Z.of_nat 4)). rewrite slice_from_0.
  intros H. apply in_map_iff in H. destruct H as (item & <- & H).
  apply In_firstn in H. apply filter_In in H. destruct H as [H I].
  destruct (contextItems_origin ms item H) as (m & md & Hin & Hp & Hmd & ->).
  unfold is_image_with_url in I; simpl in I.
  apply andb_true_iff in I. destruct I as [K U].
  apply str_eqb_eq in K.
  destruct (Metadata.image_url md) as [[|c u]|] eqn:E; try discriminate.
  exists m, md, (c :: u). repeat split; auto. discriminate.
Qed.

(** C4. A match of kind image without a non-empty image URL never appears
    in the images: every image of the response carries the non-empty URL
    of a match that passes the floor, and with the URL-less figures
    withheld the images, the response (its status included) and the calls
    are the same, whatever their scores: the drop raises no error. *)
Theorem image_without_url_dropped
  (svc : Services.t) (request : Request.t) (ms : list PineconeMatch.t) :
  (forall img, In img (response_images ms) ->
     exists m md u,
       In m ms /\ image_without_url m = false
       /\ PineconeMatch.metadata m = Some md
       /\ Metadata.image_url md = Some u /\ u <> []
       /\ ImageEntry.url img = Some u
       /\ img = image_entry (to_context_item m md))
  /\ response_images (without image_without_url ms) = response_images ms
  /\ serve (withhold image_without_url svc) request = serve svc request.
Proof.
  split; [|split].
  - intros img H.
    destruct (response_images_origin ms img H)
      as (m & md & u & Hin & Hp & Hmd & K & U & Hu & ->).
    exists m, md, u. repeat split; auto.
    unfold image_without_url. rewrite Hmd, U.
    destruct u; [congruence|]. simpl. apply andb_false_r.
  - apply response_lists_inert, image_without_url_inert.
  - apply serve_withhold_inert, image_without_url_inert.
Qed.

(** Both URL-less figures of the sample score 0.9, and the only image of
    the response is the figure of page 7. *)
Example image_without_url_sample :
  image_without_url figure_no_url = true
  /\ image_without_url figure_empty_url = true
  /\ passes_floor figure_no_url = true
  /\ passes_floor figure_empty_url = true
  /\ map ImageEntry.page (response_images sample_matches) = [7%Z].
Proof. vm_compute. repeat split. Qed.

End Figures.

(** ** Claim C5: the display limits *)

Section Limits.

Lemma slice_from_0_length {A : Type} (l : list A) (n : nat) :
  List.length (slice l 0 (Some (Z.of_nat n))) <= n.
Proof. rewrite slice_from_0. apply firstn_le_length. Qed.

Lemma response_images_length (ms : list PineconeMatch.t) :
  List.length (response_images ms) <= 4.
Proof.
  unfold response_images. rewrite length_map.
  apply (slice_from_0_length _ 4).
Qed.

Lemma response_sources_length (ms : list PineconeMatch.t) :
  List.length (response_sources ms) <= 6.
Proof. apply (slice_from_0_length _ 6). Qed.

(** The handler always answers: no exception escapes the [catch]. *)
Lemma serve_responds (svc : Services.t) (request : Request.t) :
  exists resp, response_of (serve svc request) = Some resp.
Proof. run_handler; eexists; reflexivity. Qed.

(** C5. Whatever the request and whatever the index returns, the handler
    answers, and the images of its response are at most 4 and the sources
    at most 6. *)
Theorem response_lists_bounded (svc : Services.t) (request : Request.t) :
  exists resp,
    response_of (serve svc request) = Some resp
    /\ List.length (images_of resp) <= 4
    /\ List.length (sources_of resp) <= 6.
Proof.
  run_handler; eexists; (split; [reflexivity|]);
    unfold images_of, sources_of; simpl; auto using Nat.le_0_l.
  split; [apply response_images_length | apply response_sources_length].
Qed.

End Limits.

(** ** Claims C6 and C7: the error responses *)

Section Errors.

(** C6. When the body parses and its [message] is missing or empty, the
    handler answers 400 with [{error: "Message is required"}] and calls
    no service. *)
Theorem missing_message_rejected
  (svc : Services.t) (request : Request.t) (body : Body.t) :
  Request.json request = Fulfilled body ->
  Body.message body = None \/ Body.message body = Some [] ->
  serve svc request
  = (Normal {| Response.body := ErrorBody (lit "Message is required");
               Response.status := 400 |},
     []).
Proof.
  intros J M. unfold serve, POST, try_catch, POST_try, bind, await.
  rewrite J. simpl. destruct M as [-> | ->]; reflexivity.
Qed.

Lemma missing_message_rejected_witness :
  serve (sample_services sample_matches)
        {| Request.json :=
             Fulfilled {| Body.message := Some [];
                          Body.chatHistory := Some sample_history |} |}
  = (Normal {| Response.body := ErrorBody (lit "Message is required");
               Response.status := 400 |},
     []).
Proof.
  apply (missing_message_rejected _ _
           {| Body.message := Some [];
              Body.chatHistory := Some sample_history |}).
  - reflexivity.
  - right. reflexivity.
Defined.

(** C7. When a call that the handler makes to the embedding service, the
    index or the model is rejected, the response is 500 with exactly
    [{error: "Failed to process your request. Please try again."}]: the
    same body whichever call failed, and no field of a success body. *)
Theorem downstream_failure_is_500 (svc : Services.t) (request : Request.t) :
  existsb (call_rejected svc) (calls_of (serve svc request)) = true ->
  fst (serve svc request)
  = Normal
      {| Response.body :=
           ErrorBody
             (lit "Failed to process your request. Please try again.");
         Response.status := 500 |}.
Proof.
  run_handler; try reflexivity; simpl;
    unfold is_rejected;
    repeat match goal with
           | H : ?x = _ |- context [?x] => rewrite H
           end;
    simpl; discriminate.
Qed.

Lemma downstream_failure_is_500_witness :
  fst (serve (reject_query (sample_services sample_matches))
             (sample_request None))
  = Normal
      {| Response.body :=
           ErrorBody
             (lit "Failed to process your request. Please try again.");
         Response.status := 500 |}.
Proof.
  apply (downstream_failure_is_500
           (reject_query (sample_services sample_matches))
           (sample_request None)).
  vm_compute. reflexivity.
Defined.

(** The same response whichever of the three calls is rejected; the calls
    that precede the rejected one were made. *)
Example downstream_failure_stages :
  let svc := sample_services sample_matches in
  let req := sample_request None in
  fst (serve (reject_embedding svc) req) = Normal server_error
  /\ fst (serve (reject_query svc) req) = Normal server_error
  /\ fst (serve (reject_completion svc) req) = Normal server_error
  /\ List.length (calls_of (serve (reject_embedding svc) req)) = 1
  /\ List.length (calls_of (serve (reject_query svc) req)) = 2
  /\ List.length (calls_of (serve (reject_completion svc) req)) = 3.
Proof. vm_compute. repeat split. Qed.

End Errors.

(** ** Claims C8 and C9: what is sent to the model *)

Section Conversation.

(** A call to the model is made with the conversation built from the
    body and from the matches retrieved. *)
Lemma chat_call_inv (svc : Services.t) (request : Request.t)
  (model : jsstring) (msgs : list ChatMessage.t) (temperature : float)
  (max_tokens : Z) :
  In (ChatCompletionsCreate model msgs temperature max_tokens)
     (calls_of (serve svc request)) ->
  exists body ms,
    Request.json request = Fulfilled body
    /\ truthy (Body.message body) = true
    /\ retrieved svc request = Some ms
    /\ msgs = messages (history_of body)
                       (contextString (textResults (contextItems ms))
                                      (imageResults (contextItems ms)))
                       (or_empty (Body.message body)).
Proof.
  unfold retrieved.
  run_handler; simpl;
    intros H;
    repeat match type of H with
           | _ \/ _ => destruct H as [H|H]
           | False => contradiction
           end;
    try discriminate;
    inversion H; subst;
    eexists; eexists; (split; [reflexivity|]);
    repeat match goal with
           | E : ?x = _ |- context [?x] => rewrite E
           end;
    auto.
Qed.

(** The call is made as soon as the matches are retrieved. *)
Lemma chat_call_made (svc : Services.t) (request : Request.t)
  (ms : list PineconeMatch.t) :
  retrieved svc request = Some ms ->
  exists msgs,
    In (ChatCompletionsCreate (lit "gpt-4o") msgs 0.7%float 1500)
       (calls_of (serve svc request)).
Proof.
  unfold retrieved.
  run_handler; simpl; intros H; try discriminate;
    eexists; right; right; left; reflexivity.
Qed.

Lemma slice_last_6 {A : Type} (l : list A) :
  slice l (-6) None = skipn (List.length l - 6) l.
Proof. apply (slice_last l 6). lia. Qed.

(** C8. The conversation of a call to the model is the system message,
    then the turns forwarded, then the user message; the turns forwarded
    are the last turns of the chat history of the request, in their order
    and with their role and content, at most 6 of them, and exactly 6 when
    the history is longer. *)
Theorem history_trimmed (svc : Services.t) (request : Request.t)
  (model : jsstring) (msgs : list ChatMessage.t) (temperature : float)
  (max_tokens : Z) :
  In (ChatCompletionsCreate model msgs temperature max_tokens)
     (calls_of (serve svc request)) ->
  exists (body : Body.t) (dropped forwarded : list HistoryTurn.t)
         (context : jsstring),
    Request.json request = Fulfilled body
    /\ history_of body = dropped ++ forwarded
    /\ List.length forwarded <= 6
    /\ (6 < List.length (history_of body) -> List.length forwarded = 6)
    /\ (List.length (history_of body) <= 6 -> forwarded = history_of body)
    /\ msgs
       = {| ChatMessage.role := lit "system";
            ChatMessage.content := systemPrompt |}
         :: map (fun turn =>
                   {| ChatMessage.role := HistoryTurn.role turn;
                      ChatMessage.content := HistoryTurn.content turn |})
                forwarded
         ++ [ {| ChatMessage.role := lit "user";
                 ChatMessage.content :=
                   user_content context (or_empty (Body.message body)) |} ].
Proof.
  intros H.
  destruct (chat_call_inv _ _ _ _ _ _ H) as (body & ms & J & T & R & ->).
  exists body,
    (firstn (List.length (history_of body) - 6) (history_of body)),
    (skipn (List.length (history_of body) - 6) (history_of body)).
  eexists. split; [exact J|].
  split; [symmetry; apply firstn_skipn|].
  split; [rewrite length_skipn; lia|].
  split; [intros L; rewrite length_skipn; lia|].
  split.
  - intros L.
    replace (List.length (history_of body) - 6) with 0 by lia. reflexivity.
  - unfold messages. rewrite slice_last_6. reflexivity.
Qed.

Lemma history_trimmed_witness :
  exists (body : Body.t) (dropped forwarded : list HistoryTurn.t)
         (context : jsstring),
    Request.json (sample_request (Some sample_history)) = Fulfilled body
    /\ history_of body = dropped ++ forwarded
    /\ List.length forwarded <= 6
    /\ (6 < List.length (history_of body) -> List.length forwarded = 6)
    /\ (List.length (history_of body) <= 6 -> forwarded = history_of body)
    /\ messages sample_history (context_layout sample_matches)
                sample_question
       = {| ChatMessage.role := lit "system";
            ChatMessage.content := systemPrompt |}
         :: map (fun turn =>
                   {| ChatMessage.role := HistoryTurn.role turn;
                      ChatMessage.content := HistoryTurn.content turn |})
                forwarded
         ++ [ {| ChatMessage.role := lit "user";
                 ChatMessage.content :=
                   user_content context (or_empty (Body.message body)) |} ].
Proof.
  apply (history_trimmed (sample_services sample_matches)
           (sample_request (Some sample_history))
           (lit "gpt-4o") _ 0.7%float 1500).
  vm_compute. right. right. left. reflexivity.
Defined.

(** Of the eight turns of the sample history, the last six are sent. *)
Example history_trimmed_sample :
  map ChatMessage.content
      (messages sample_history [] sample_question)
  = [ systemPrompt;
      lit "turn 3"; lit "turn 4"; lit "turn 5"; lit "turn 6"; lit "turn 7";
      lit "turn 8";
      user_content [] sample_question ].
Proof. vm_compute. reflexivity. Qed.

End Conversation.

Section Context.

Lemma fold_left_append {A : Type} (f : A -> jsstring) (l : list A)
  (init : jsstring) :
  fold_left (fun s x => s ++ f x) l init = init ++ List.concat (map f l).
Proof.
  revert init; induction l as [|x l IH]; intros init; simpl.
  - rewrite app_nil_r; reflexivity.
  - rewrite IH, <- app_assoc; reflexivity.
Qed.

(** The two loops, as sections. *)
Lemma contextString_sections (texts images : list ContextItem.t) :
  contextString texts images
  = context_section text_heading (map text_block texts)
    ++ context_section figures_heading (map figure_block images).
Proof.
  unfold contextString.
  destruct texts as [|t texts], images as [|i images];
    cbn [context_section map app];
    rewrite ?fold_left_append, ?app_nil_r; cbn [app map];
    rewrite <- ?app_assoc; reflexivity.
Qed.




(** The scenario of the specification: both passages, then the figure. *)
Example contextString_sample :
  contextString (textResults (contextItems sample_matches))
                (imageResults (contextItems sample_matches))
  = lit "### Relevant Text from Research Papers:" ++ LF ++ LF
    ++ lit "[Paper: " ++ DQUOTE ++ lit "Glacial Lake Outburst Floods"
    ++ DQUOTE ++ lit ", Page 5]" ++ LF
    ++ lit "Moraine dams fail." ++ LF ++ LF
    ++ lit "[Paper: " ++ DQUOTE ++ lit "Glacial Lake Outburst Floods"
    ++ DQUOTE ++ lit ", Page 12]" ++ LF
    ++ lit "Ice avalanches trigger waves." ++ LF ++ LF
    ++ lit "### Relevant Figures/Charts Available:" ++ LF ++ LF
    ++ lit "[Figure from: " ++ DQUOTE ++ lit "Glacial Lake Outburst Floods"
    ++ DQUOTE ++ lit ", Page 7]" ++ LF
    ++ lit "Figure Description: Map of lakes." ++ LF ++ LF.
Proof. vm_compute. reflexivity. Qed.

End Context.

(** ** Claim C2: the sources *)

Section Sources.

(** *** The object *)

Lemma own_property_None {V : Type} (o : jsobject V) (k : jsstring) :
  own_property o k = None <-> existsb (str_eqb k) (map fst o) = false.
Proof.
  induction o as [|[k' v] o IH]; simpl; [tauto|].
  destruct (str_eqb k k'); simpl; [split; discriminate | assumption].
Qed.

Lemma has_truthy_keys {V : Type} (o : jsobject V) (k : jsstring) :
  has_truthy o k = existsb (str_eqb k) (map fst o) || inherited k.
Proof.
  unfold has_truthy.
  destruct (own_property o k) eqn:E.
  - destruct (existsb (str_eqb k) (map fst o)) eqn:X; [reflexivity|].
    apply own_property_None in X. congruence.
  - apply own_property_None in E. rewrite E. reflexivity.
Qed.

Lemma set_property_new {V : Type} (o : jsobject V) (k : jsstring) (v : V) :
  existsb (str_eqb k) (map fst o) = false ->
  set_property o k v = o ++ [(k, v)].
Proof.
  induction o as [|[k' v'] o IH]; simpl; [reflexivity|].
  destruct (str_eqb k k'); simpl; [discriminate|].
  intros H. rewrite IH by assumption. reflexivity.
Qed.

Lemma own_property_In {V : Type} (o : jsobject V) (k : jsstring) (v : V) :
  own_property o k = Some v -> In (k, v) o.
Proof.
  induction o as [|[k' v'] o IH]; simpl; [discriminate|].
  destruct (str_eqb k k') eqn:E.
  - apply str_eqb_eq in E. intros [= ->]. subst. auto.
  - auto.
Qed.

Lemma own_property_of_key {V : Type} (o : jsobject V) (k : jsstring) :
  In k (map fst o) -> exists v, own_property o k = Some v.
Proof.
  induction o as [|[k' v'] o IH]; simpl; [tauto|].
  intros [->|H].
  - rewrite str_eqb_refl. eauto.
  - destruct (str_eqb k k'); eauto.
Qed.

(** *** The order of [Object.keys] *)

Lemma insert_by_index_perm {X : Type} (x : N * X) (l : list (N * X)) :
  Permutation (insert_by_index x l) (x :: l).
Proof.
  induction l as [|y l IH]; simpl; [reflexivity|].
  destruct (fst x <=? fst y)%N; [reflexivity|].
  rewrite IH. apply perm_swap.
Qed.

Lemma sort_by_index_perm {X : Type} (l : list (N * X)) :
  Permutation (sort_by_index l) l.
Proof.
  induction l as [|x l IH]; simpl; [reflexivity|].
  rewrite insert_by_index_perm. constructor. assumption.
Qed.

Lemma Object_keys_perm {V : Type} (o : jsobject V) :
  Permutation (Object_keys o) (map fst o).
Proof.
  unfold Object_keys.
  rewrite sort_by_index_perm.
  induction (map fst o) as [|k ks IH]; simpl; [reflexivity|].
  destruct (array_index k); simpl.
  - constructor. assumption.
  - rewrite <- Permutation_middle. constructor. assumption.
Qed.

(** *** The loop that fills [sourceMap] *)

Lemma sourceMap_from (texts : list ContextItem.t)
  (o : jsobject SourceEntry.t) :
  fold_left
    (fun o t =>
       if negb (has_truthy o (ContextItem.source t))
       then set_property o (ContextItem.source t) (source_entry t)
       else o)
    texts o
  = o ++ map source_property (first_by_title (map fst o) texts).
Proof.
  revert o; induction texts as [|t texts IH]; intros o; simpl.
  - rewrite app_nil_r; reflexivity.
  - rewrite IH, has_truthy_keys.
    destruct (existsb (str_eqb (ContextItem.source t)) (map fst o)) eqn:X;
      simpl; [reflexivity|].
    destruct (inherited (ContextItem.source t)); simpl; [reflexivity|].
    rewrite set_property_new by assumption.
    rewrite map_app, <- app_assoc. reflexivity.
Qed.

Lemma sourceMap_first_by_title (texts : list ContextItem.t) :
  sourceMap texts = map source_property (first_by_title [] texts).
Proof. unfold sourceMap. rewrite sourceMap_from. reflexivity. Qed.

Lemma existsb_str_eqb (k : jsstring) (l : list jsstring) :
  existsb (str_eqb k) l = true <-> In k l.
Proof.
  rewrite existsb_exists. split.
  - intros (x & H & E). apply str_eqb_eq in E. subst; assumption.
  - intros H. exists k. split; [assumption | apply str_eqb_refl].
Qed.

Lemma first_by_title_fresh (seen : list jsstring)
  (texts : list ContextItem.t) (t : ContextItem.t) :
  In t (first_by_title seen texts) ->
  ~ In (ContextItem.source t) seen
  /\ inherited (ContextItem.source t) = false
  /\ In t texts.
Proof.
  revert seen; induction texts as [|t0 texts IH]; intros seen; simpl;
    [tauto|].
  destruct (existsb (str_eqb (ContextItem.source t0)) seen) eqn:X; simpl.
  - intros H. destruct (IH _ H) as (? & ? & ?). auto.
  - destruct (inherited (ContextItem.source t0)) eqn:I.
    + intros H. destruct (IH _ H) as (? & ? & ?). auto.
    + intros [<-|H].
      * repeat split; auto.
        intros K. apply existsb_str_eqb in K. congruence.
      * destruct (IH _ H) as (F & ? & ?). repeat split; auto.
        intros K. apply F. apply in_or_app. auto.
Qed.

Lemma first_by_title_NoDup (seen : list jsstring)
  (texts : list ContextItem.t) :
  NoDup (map ContextItem.source (first_by_title seen texts)).
Proof.
  revert seen; induction texts as [|t0 texts IH]; intros seen; simpl;
    [constructor|].
  destruct (existsb (str_eqb (ContextItem.source t0)) seen
            || inherited (ContextItem.source t0)); [apply IH|].
  simpl. constructor; [|apply IH].
  intros K. apply in_map_iff in K. destruct K as (t & E & K).
  apply first_by_title_fresh in K. destruct K as (F & _ & _).
  apply F. rewrite E. apply in_or_app. simpl; auto.
Qed.

(** An item that creates a property is the first-ranked of its title. *)
Lemma first_by_title_first (seen : list jsstring)
  (texts : list ContextItem.t) (t : ContextItem.t) :
  In t (first_by_title seen texts) ->
  first_with_title (ContextItem.source t) texts = Some t.
Proof.
  unfold first_with_title.
  revert seen; induction texts as [|t0 texts IH]; intros seen; simpl;
    [tauto|].
  destruct (existsb (str_eqb (ContextItem.source t0)) seen) eqn:X; simpl.
  - intros H. destruct (first_by_title_fresh _ _ _ H) as (F & _ & _).
    destruct (str_eqb (ContextItem.source t0) (ContextItem.source t)) eqn:E.
    + apply str_eqb_eq in E. apply existsb_str_eqb in X.
      rewrite E in X. contradiction.
    + eapply IH; eassumption.
  - destruct (inherited (ContextItem.source t0)) eqn:I.
    + intros H. destruct (first_by_title_fresh _ _ _ H) as (_ & F & _).
      destruct (str_eqb (ContextItem.source t0) (ContextItem.source t))
        eqn:E.
      * apply str_eqb_eq in E. congruence.
      * eapply IH; eassumption.
    + intros [<-|H]; [rewrite str_eqb_refl; reflexivity|].
      destruct (first_by_title_fresh _ _ _ H) as (F & _ & _).
      destruct (str_eqb (ContextItem.source t0) (ContextItem.source t))
        eqn:E.
      * apply str_eqb_eq in E. exfalso. apply F.
        apply in_or_app. rewrite E. simpl; auto.
      * eapply IH; eassumption.
Qed.

(** Every title that is not inherited and not yet seen creates one. *)
Lemma first_by_title_complete (seen : list jsstring)
  (texts : list ContextItem.t) (title : jsstring) :
  In title (map ContextItem.source texts) ->
  ~ In title seen ->
  inherited title = false ->
  In title (map ContextItem.source (first_by_title seen texts)).
Proof.
  revert seen; induction texts as [|t0 texts IH]; intros seen; simpl;
    [tauto|].
  intros H F I.
  destruct (str_eqb (ContextItem.source t0) title) eqn:E.
  - apply str_eqb_eq in E. subst title.
    destruct (existsb (str_eqb (ContextItem.source t0)) seen) eqn:X.
    + apply existsb_str_eqb in X. contradiction.
    + rewrite I. simpl. auto.
  - apply str_eqb_neq in E.
    destruct H as [H|H]; [contradiction|].
    destruct (existsb (str_eqb (ContextItem.source t0)) seen
              || inherited (ContextItem.source t0)).
    + apply IH; assumption.
    + simpl. right. apply IH; try assumption.
      intros K. apply in_app_or in K. destruct K as [K|[K|[]]];
        [contradiction | congruence].
Qed.

(** *** The sources *)

Lemma sourceMap_keys (texts : list ContextItem.t) :
  map fst (sourceMap texts)
  = map ContextItem.source (first_by_title [] texts).
Proof.
  rewrite sourceMap_first_by_title, map_map. reflexivity.
Qed.

Lemma sourceMap_entry (texts : list ContextItem.t) (k : jsstring)
  (e : SourceEntry.t) :
  In (k, e) (sourceMap texts) ->
  exists t,
    In t (first_by_title [] texts)
    /\ k = ContextItem.source t /\ e = source_entry t.
Proof.
  rewrite sourceMap_first_by_title. intros H.
  apply in_map_iff in H. destruct H as (t & E & H).
  inversion E; subst. exists t. auto.
Qed.

(** The sources bear the keys of [sourceMap], in the order of
    [Object.keys]. *)
Lemma sources_titles (texts : list ContextItem.t) :
  map SourceEntry.title (sources texts) = Object_keys (sourceMap texts).
Proof.
  unfold sources.
  assert (K : forall k, In k (Object_keys (sourceMap texts)) ->
                        In k (map fst (sourceMap texts))).
  { intros k H. eapply Permutation_in; [apply Object_keys_perm | exact H]. }
  induction (Object_keys (sourceMap texts)) as [|k ks IH]; [reflexivity|].
  simpl.
  destruct (own_property_of_key (sourceMap texts) k) as (e & E);
    [apply K; simpl; auto|].
  rewrite E. simpl. rewrite IH by (intros; apply K; simpl; auto).
  destruct (sourceMap_entry texts k e (own_property_In _ _ _ E))
    as (t & _ & -> & ->).
  reflexivity.
Qed.

Lemma sources_entry (texts : list ContextItem.t) (e : SourceEntry.t) :
  In e (sources texts) ->
  exists t, In t (first_by_title [] texts) /\ e = source_entry t.
Proof.
  unfold sources. intros H. apply in_flat_map in H.
  destruct H as (k & _ & H).
  destruct (own_property (sourceMap texts) k) as [e'|] eqn:E;
    [|contradiction].
  destruct H as [<-|[]].
  destruct (sourceMap_entry texts k e' (own_property_In _ _ _ E))
    as (t & H & _ & ->).
  exists t. auto.
Qed.

Lemma Object_keys_sourceMap_NoDup (texts : list ContextItem.t) :
  NoDup (Object_keys (sourceMap texts)).
Proof.
  eapply Permutation_NoDup;
    [symmetry; apply Object_keys_perm|].
  rewrite sourceMap_keys. apply first_by_title_NoDup.
Qed.

Lemma NoDup_firstn {A : Type} (n : nat) (l : list A) :
  NoDup l -> NoDup (firstn n l).
Proof.
  intros H. rewrite <- (firstn_skipn n l) in H.
  eapply NoDup_app_remove_r. exact H.
Qed.

Lemma count_title_titles (title : jsstring) (srcs : list SourceEntry.t) :
  count_title title srcs
  = List.length (filter (fun k => str_eqb k title)
                        (map SourceEntry.title srcs)).
Proof.
  unfold count_title. induction srcs as [|e srcs IH]; [reflexivity|].
  simpl. destruct (str_eqb (SourceEntry.title e) title); simpl; auto.
Qed.

Lemma filter_title_absent (title : jsstring) (l : list jsstring) :
  ~ In title l -> filter (fun k => str_eqb k title) l = [].
Proof.
  induction l as [|k l IH]; simpl; [reflexivity|].
  intros H. destruct (str_eqb k title) eqn:E.
  - apply str_eqb_eq in E. exfalso. auto.
  - apply IH. auto.
Qed.

Lemma NoDup_count_le (title : jsstring) (l : list jsstring) :
  NoDup l -> List.length (filter (fun k => str_eqb k title) l) <= 1.
Proof.
  induction 1 as [|k l Hk _ IH]; simpl; [lia|].
  destruct (str_eqb k title) eqn:E; [|assumption].
  apply str_eqb_eq in E. subst k.
  rewrite filter_title_absent by assumption. simpl. lia.
Qed.

Lemma NoDup_count_one (title : jsstring) (l : list jsstring) :
  NoDup l -> In title l ->
  List.length (filter (fun k => str_eqb k title) l) = 1.
Proof.
  induction 1 as [|k l Hk _ IH]; simpl; [tauto|].
  intros [->|H].
  - rewrite str_eqb_refl, filter_title_absent by assumption. reflexivity.
  - destruct (str_eqb k title) eqn:E; [|auto].
    apply str_eqb_eq in E. subst k. contradiction.
Qed.

Lemma response_sources_titles (ms : list PineconeMatch.t) :
  map SourceEntry.title (response_sources ms)
  = firstn 6 (Object_keys (sourceMap (textResults (contextItems ms)))).
Proof.
  unfold response_sources.
  change (Some 6%Z) with (Some (Z.of_nat 6)).
  rewrite slice_from_0, <- sources_titles.
  symmetry. apply firstn_map.
Qed.

Lemma first_with_title_In (title : jsstring) (texts : list ContextItem.t)
  (t : ContextItem.t) :
  first_with_title title texts = Some t ->
  In t texts /\ ContextItem.source t = title.
Proof.
  unfold first_with_title. intros H. apply find_some in H.
  destruct H as [H E]. apply str_eqb_eq in E. auto.
Qed.

(** C2, as the code has it.  Let [t] be the first-ranked surviving text
    match of a title.  The sources hold at most one entry of that title,
    and such an entry is the one made from [t]: it has the page of [t].
    They hold exactly one when the title is among the first six keys of
    [sourceMap] (in particular when [sourceMap] has at most six keys) and
    is not the name of a property of [Object.prototype]. *)
Theorem sources_deduplicated (ms : list PineconeMatch.t) (title : jsstring)
  (t : ContextItem.t) :
  first_with_title title (textResults (contextItems ms)) = Some t ->
  count_title title (response_sources ms) <= 1
  /\ (forall e, In e (response_sources ms) ->
        SourceEntry.title e = title ->
        SourceEntry.page e = ContextItem.page t
        /\ SourceEntry.pdfFile e = createPdfFilename title)
  /\ (In title (firstn 6 (Object_keys (sourceMap (textResults (contextItems ms))))) ->
      count_title title (response_sources ms) = 1)
  /\ (inherited title = false ->
      List.length (Object_keys (sourceMap (textResults (contextItems ms)))) <= 6 ->
      count_title title (response_sources ms) = 1).
Proof.
  intros First.
  assert (Keys : NoDup (firstn 6 (Object_keys (sourceMap (textResults (contextItems ms))))))
    by apply NoDup_firstn, Object_keys_sourceMap_NoDup.
  split; [|split; [|split]].
  - rewrite count_title_titles, response_sources_titles.
    apply NoDup_count_le, Keys.
  - intros e H E. unfold response_sources in H.
    change (Some 6%Z) with (Some (Z.of_nat 6)) in H.
    rewrite slice_from_0 in H.
    apply In_firstn in H.
    destruct (sources_entry _ _ H) as (t' & H' & ->).
    simpl in E. pose proof (first_by_title_first _ _ _ H') as F.
    rewrite E in F. rewrite F in First. inversion First; subst t'.
    simpl. rewrite E. auto.
  - intros H.
    rewrite count_title_titles, response_sources_titles.
    apply NoDup_count_one; assumption.
  - intros I L.
    rewrite count_title_titles, response_sources_titles.
    apply NoDup_count_one; [assumption|].
    rewrite firstn_all2 by assumption.
    eapply Permutation_in; [symmetry; apply Object_keys_perm|].
    rewrite sourceMap_keys.
    destruct (first_with_title_In _ _ _ First) as [H E].
    apply first_by_title_complete; auto.
    apply in_map_iff. exists t. auto.
Qed.

Lemma sources_deduplicated_witness :
  count_title glof_title (response_sources sample_matches) <= 1
  /\ (forall e, In e (response_sources sample_matches) ->
        SourceEntry.title e = glof_title ->
        SourceEntry.page e = ContextItem.page passage_p5_item
        /\ SourceEntry.pdfFile e = createPdfFilename glof_title)
  /\ (In glof_title
         (firstn 6 (Object_keys (sourceMap (textResults (contextItems sample_matches))))) ->
      count_title glof_title (response_sources sample_matches) = 1)
  /\ (inherited glof_title = false ->
      List.length (Object_keys (sourceMap (textResults (contextItems sample_matches)))) <= 6 ->
      count_title glof_title (response_sources sample_matches) = 1).
Proof.
  apply (sources_deduplicated sample_matches glof_title passage_p5_item).
  vm_compute. reflexivity.
Defined.

(** The claim as the specification words it fails on seven papers: the
    passage of the seventh survives the filter, and the sources, cut to
    six, hold no entry of its title. *)
Lemma sources_exactly_one_counterexample :
  (exists t,
     first_with_title (lit "Paper 7")
                      (textResults (contextItems seven_papers)) = Some t
     /\ ContextItem.page t = 17%Z)
  /\ List.length (textResults (contextItems seven_papers)) = 7
  /\ count_title (lit "Paper 7") (response_sources seven_papers) = 0
  /\ map SourceEntry.page (response_sources seven_papers)
     = [11; 12; 13; 14; 15; 16]%Z.
Proof.
  split; [eexists; split; vm_compute; reflexivity|].
  vm_compute. repeat split.
Qed.

(** The scenario of the specification: one source, with page 5. *)
Example sources_sample :
  response_sources sample_matches
  = [ {| SourceEntry.title := lit "Glacial Lake Outburst Floods";
         SourceEntry.page := 5;
         SourceEntry.pdfFile := lit "Glacial_Lake_Outburst_Floods.pdf" |} ].
Proof. vm_compute. reflexivity. Qed.

(** Titles that are array indices come first, in ascending order; a title
    that names a property of [Object.prototype] creates no source. *)
Example sources_odd_titles :
  map (fun e => (SourceEntry.title e, SourceEntry.page e))
      (response_sources odd_titles)
  = [ (lit "9", 4%Z); (lit "10", 2%Z); (lit "Zebra", 1%Z);
      (lit "007", 6%Z) ].
Proof. vm_compute. reflexivity. Qed.

End Sources.

(** ** The success response *)

Section Success.

(** A response of status 200 carries the answer of the model with the
    images and the sources of the matches retrieved. *)
Lemma success_response_inv (svc : Services.t) (request : Request.t)
  (resp : Response.t) :
  response_of (serve svc request) = Some resp ->
  Response.status resp = 200%Z ->
  exists ms answer,
    retrieved svc request = Some ms
    /\ Response.body resp
       = ChatBody answer (response_images ms) (response_sources ms).
Proof.
  unfold retrieved.
  run_handler; intros [= <-]; simpl; intros E; try discriminate;
    repeat match goal with
           | H : ?x = _ |- context [?x] => rewrite H
           end;
    eexists; eexists; split; reflexivity.
Qed.

(** The scenario of the specification, served. *)
Example serve_sample :
  response_of (serve (sample_services sample_matches)
                     (sample_request None))
  = Some
      {| Response.body :=
           ChatBody sample_answer
                    (response_images sample_matches)
                    (response_sources sample_matches);
         Response.status := 200 |}
  /\ List.length (response_images sample_matches) = 1
  /\ List.length (response_sources sample_matches) = 1
  /\ List.length (calls_of (serve (sample_services sample_matches)
                                  (sample_request None))) = 3.
Proof. vm_compute. repeat split. Qed.

End Success.

(** * Further properties of the handler *)

(** ** The paths of [POST] *)

Section Paths.

(** X1. No service is called unless the body parses with a truthy
    message.  Otherwise the calls are a non-empty prefix of: the embedding
    of the message as it is, the query of the index with [topK] 12 and
    metadata, the completion by [gpt-4o] at temperature 0.7 with at most
    1500 tokens.  No service is called twice, and none out of this
    order. *)
Theorem calls_in_order (svc : Services.t) (request : Request.t) :
  match Request.json request with
  | Rejected => calls_of (serve svc request) = []
  | Fulfilled body =>
      if truthy (Body.message body) then
        exists vector conversation n,
          1 <= n <= 3
          /\ calls_of (serve svc request)
             = firstn n
                 [ EmbeddingsCreate (lit "text-embedding-3-small")
                                    (or_empty (Body.message body)) 1536;
                   IndexQuery vector 12 true;
                   ChatCompletionsCreate (lit "gpt-4o") conversation
                                         0.7%float 1500 ]
      else calls_of (serve svc request) = []
  end.
Proof.
  run_handler; try reflexivity;
    match goal with
    | |- context [IndexQuery ?v _ _ :: ChatCompletionsCreate _ ?c _ _ :: _] =>
        exists v, c, 3
    | |- context [IndexQuery ?v _ _ :: _] => exists v, [], 2
    | |- _ => exists [], [], 1
    end;
    repeat split; auto.
Qed.

(** X2. A response has one of three shapes: 400 with "Message is
    required"; 500 with the generic failure text; or 200 with an answer
    and the images and sources of the matches retrieved.  No other status
    or body is produced. *)
Theorem response_shapes (svc : Services.t) (request : Request.t) :
  exists resp,
    response_of (serve svc request) = Some resp
    /\ (resp = {| Response.body := ErrorBody (lit "Message is required");
                  Response.status := 400 |}
        \/ resp
           = {| Response.body :=
                  ErrorBody
                    (lit "Failed to process your request. Please try again.");
                Response.status := 500 |}
        \/ exists ms answer,
             retrieved svc request = Some ms
             /\ resp
                = {| Response.body :=
                       ChatBody answer (response_images ms)
                                (response_sources ms);
                     Response.status := 200 |}).
Proof.
  unfold retrieved.
  run_handler; eexists; (split; [reflexivity|]);
    try (left; reflexivity); try (right; left; reflexivity).
  right; right.
  repeat match goal with
         | H : ?x = _ |- context [?x] => rewrite H
         end.
  eexists; eexists; split; reflexivity.
Qed.

(** X3. When [request.json()] is rejected (the body is not JSON), the
    handler answers 500 and calls no service. *)
Theorem unparsed_body_is_500 (svc : Services.t) (request : Request.t) :
  Request.json request = Rejected ->
  serve svc request
  = (Normal
       {| Response.body :=
            ErrorBody
              (lit "Failed to process your request. Please try again.");
          Response.status := 500 |},
     []).
Proof.
  intros J. unfold serve, POST, try_catch, POST_try, bind, await.
  rewrite J. reflexivity.
Qed.

Lemma unparsed_body_is_500_witness :
  serve (sample_services sample_matches) {| Request.json := Rejected |}
  = (Normal
       {| Response.body :=
            ErrorBody
              (lit "Failed to process your request. Please try again.");
          Response.status := 500 |},
     []).
Proof.
  apply (unparsed_body_is_500 (sample_services sample_matches)
           {| Request.json := Rejected |}).
  reflexivity.
Defined.

(** X4. When the embedding service answers with an empty [data] array,
    reading [data[0].embedding] throws: the handler answers 500 after the
    embedding call alone, without querying the index or the model. *)
Theorem empty_embedding_is_500 (svc : Services.t) (request : Request.t)
  (body : Body.t) :
  Request.json request = Fulfilled body ->
  truthy (Body.message body) = true ->
  Services.embeddings_create svc (or_empty (Body.message body))
  = Fulfilled {| EmbeddingResponse.data := [] |} ->
  serve svc request
  = (Normal
       {| Response.body :=
            ErrorBody
              (lit "Failed to process your request. Please try again.");
          Response.status := 500 |},
     [ EmbeddingsCreate (lit "text-embedding-3-small")
                        (or_empty (Body.message body)) 1536 ]).
Proof.
  intros J T E.
  unfold serve, POST, try_catch, POST_try, bind, await_call, await,
    first_element, ret, throw.
  rewrite J. handler_step. rewrite T. handler_step.
  rewrite E. reflexivity.
Qed.

Lemma empty_embedding_is_500_witness :
  serve (empty_embedding (sample_services sample_matches))
        (sample_request None)
  = (Normal
       {| Response.body :=
            ErrorBody
              (lit "Failed to process your request. Please try again.");
          Response.status := 500 |},
     [ EmbeddingsCreate (lit "text-embedding-3-small")
                        (or_empty (Some sample_question)) 1536 ]).
Proof.
  apply (empty_embedding_is_500
           (empty_embedding (sample_services sample_matches))
           (sample_request None)
           {| Body.message := Some sample_question;
              Body.chatHistory := None |});
    reflexivity.
Defined.

(** X5. When the matches are retrieved and the model answers with at
    least one choice, the handler answers 200 with the content of the
    first choice (the empty string when that content is null), the images
    and the sources of the matches; the other choices are not read.  The
    calls are the three, in order, the last one with the conversation
    built from the body and the matches. *)
Theorem fulfilled_calls_give_200 (svc : Services.t) (request : Request.t)
  (body : Body.t) (ms : list PineconeMatch.t) (choice : Choice.t)
  (rest : list Choice.t) :
  Request.json request = Fulfilled body ->
  retrieved svc request = Some ms ->
  Services.chat_completions_create svc (conversation_for body ms)
  = Fulfilled {| ChatCompletion.choices := choice :: rest |} ->
  fst (serve svc request)
  = Normal
      {| Response.body :=
           ChatBody (or_empty (Choice.content choice))
                    (response_images ms) (response_sources ms);
         Response.status := 200 |}
  /\ exists vector,
       calls_of (serve svc request)
       = [ EmbeddingsCreate (lit "text-embedding-3-small")
                            (or_empty (Body.message body)) 1536;
           IndexQuery vector 12 true;
           ChatCompletionsCreate (lit "gpt-4o") (conversation_for body ms)
                                 0.7%float 1500 ].
Proof.
  unfold retrieved, conversation_for. intros J.
  run_handler; intros R C; try discriminate;
    inversion J; inversion R; subst;
    match goal with
    | H1 : ?x = Fulfilled {| ChatCompletion.choices := _ |},
      H2 : ?y = Fulfilled {| ChatCompletion.choices := _ |} |- _ =>
        simpl in H1, H2; rewrite H1 in H2; inversion H2; subst
    | H1 : ?x = Rejected,
      H2 : ?y = Fulfilled {| ChatCompletion.choices := _ |} |- _ =>
        simpl in H1, H2; rewrite H1 in H2; discriminate
    end;
    (split; [reflexivity | eexists; reflexivity]).
Qed.

Lemma fulfilled_calls_give_200_witness :
  fst (serve (null_content (sample_services sample_matches))
             (sample_request (Some sample_history)))
  = Normal
      {| Response.body :=
           ChatBody (or_empty (Choice.content {| Choice.content := None |}))
                    (response_images sample_matches)
                    (response_sources sample_matches);
         Response.status := 200 |}
  /\ exists vector,
       calls_of (serve (null_content (sample_services sample_matches))
                       (sample_request (Some sample_history)))
       = [ EmbeddingsCreate (lit "text-embedding-3-small")
                            (or_empty (Some sample_question)) 1536;
           IndexQuery vector 12 true;
           ChatCompletionsCreate
             (lit "gpt-4o")
             (conversation_for
                {| Body.message := Some sample_question;
                   Body.chatHistory := Some sample_history |}
                sample_matches)
             0.7%float 1500 ].
Proof.
  apply (fulfilled_calls_give_200
           (null_content (sample_services sample_matches))
           (sample_request (Some sample_history))
           {| Body.message := Some sample_question;
              Body.chatHistory := Some sample_history |}
           sample_matches
           {| Choice.content := None |}
           [ {| Choice.content := Some (lit "second choice") |} ]);
    reflexivity.
Defined.

(** X6. When the model answers with no choice, reading
    [choices[0].message] throws: the handler answers 500 although the
    three calls were made. *)
Theorem no_choice_is_500 (svc : Services.t) (request : Request.t)
  (body : Body.t) (ms : list PineconeMatch.t) :
  Request.json request = Fulfilled body ->
  retrieved svc request = Some ms ->
  Services.chat_completions_create svc (conversation_for body ms)
  = Fulfilled {| ChatCompletion.choices := [] |} ->
  fst (serve svc request)
  = Normal
      {| Response.body :=
           ErrorBody
             (lit "Failed to process your request. Please try again.");
         Response.status := 500 |}
  /\ List.length (calls_of (serve svc request)) = 3.
Proof.
  unfold retrieved, conversation_for. intros J.
  run_handler; intros R C; try discriminate;
    try (split; reflexivity);
    inversion J; inversion R; subst;
    match goal with
    | H1 : ?x = Fulfilled {| ChatCompletion.choices := _ :: _ |},
      H2 : ?y = Fulfilled {| ChatCompletion.choices := [] |} |- _ =>
        simpl in H1, H2; rewrite H1 in H2; discriminate
    | H1 : ?x = Rejected,
      H2 : ?y = Fulfilled {| ChatCompletion.choices := [] |} |- _ =>
        simpl in H1, H2; rewrite H1 in H2; discriminate
    end.
Qed.

Lemma no_choice_is_500_witness :
  fst (serve (no_choices (sample_services sample_matches))
             (sample_request None))
  = Normal
      {| Response.body :=
           ErrorBody
             (lit "Failed to process your request. Please try again.");
         Response.status := 500 |}
  /\ List.length (calls_of (serve (no_choices (sample_services sample_matches))
                                  (sample_request None))) = 3.
Proof.
  apply (no_choice_is_500
           (no_choices (sample_services sample_matches))
           (sample_request None)
           {| Body.message := Some sample_question;
              Body.chatHistory := None |}
           sample_matches);
    reflexivity.
Defined.

(** X7. When no match survives the floor (the index returned none, or
    left [matches] out, or all fall below), the handler does not stop: it
    still calls the model, with an empty research context, and a response
    holds neither image nor source. *)
Theorem no_survivor_still_asks (svc : Services.t) (request : Request.t)
  (body : Body.t) (ms : list PineconeMatch.t) :
  Request.json request = Fulfilled body ->
  retrieved svc request = Some ms ->
  contextItems ms = [] ->
  In (ChatCompletionsCreate
        (lit "gpt-4o")
        (messages (history_of body) [] (or_empty (Body.message body)))
        0.7%float 1500)
     (calls_of (serve svc request))
  /\ (forall resp,
        response_of (serve svc request) = Some resp ->
        images_of resp = [] /\ sources_of resp = []).
Proof.
  unfold retrieved. intros J.
  run_handler; intros R K; try discriminate;
    inversion J; inversion R; subst;
    unfold response_images, response_sources; rewrite ?K;
    (split; [simpl; auto | intros resp [= <-]; split; reflexivity]).
Qed.

Lemma no_survivor_still_asks_witness :
  In (ChatCompletionsCreate
        (lit "gpt-4o")
        (messages (history_of {| Body.message := Some sample_question;
                                 Body.chatHistory := None |})
                  []
                  (or_empty (Some sample_question)))
        0.7%float 1500)
     (calls_of (serve (sample_services
                         [match_bare; passage_at_floor; passage_unscored])
                      (sample_request None)))
  /\ (forall resp,
        response_of (serve (sample_services
                              [match_bare; passage_at_floor; passage_unscored])
                           (sample_request None))
        = Some resp ->
        images_of resp = [] /\ sources_of resp = []).
Proof.
  apply (no_survivor_still_asks
           (sample_services [match_bare; passage_at_floor; passage_unscored])
           (sample_request None)
           {| Body.message := Some sample_question;
              Body.chatHistory := None |}
           [match_bare; passage_at_floor; passage_unscored]);
    reflexivity.
Defined.

End Paths.

(** ** The filter and the partition *)

Section Filter.

Lemma zero_repr : Prim2SF 0%float = S754_zero false.
Proof. reflexivity. Qed.

Lemma not_nan_repr (s : float) :
  PrimFloat.is_nan s = false -> Prim2SF s <> S754_nan.
Proof.
  unfold PrimFloat.is_nan. rewrite eqb_spec. unfold SFeqb.
  intros H E. rewrite E in H. discriminate.
Qed.

Lemma is_zero_repr (s : float) :
  PrimFloat.is_zero s = true -> exists sign, Prim2SF s = S754_zero sign.
Proof.
  unfold PrimFloat.is_zero. rewrite eqb_spec.
  change PrimFloat.zero with 0%float. rewrite zero_repr. unfold SFeqb.
  destruct (Prim2SF s) as [sg|sg| |sg m e]; simpl; try discriminate.
  - eauto.
  - destruct sg; discriminate.
  - destruct sg; discriminate.
Qed.

(** A number that is not [NaN] and not at most the floor is above it. *)
Lemma above_floor (s : float) :
  PrimFloat.is_nan s = false ->
  (s <=? relevance_floor)%float = false ->
  (relevance_floor <? s)%float = true.
Proof.
  intros N. apply not_nan_repr in N. revert N.
  rewrite leb_spec, ltb_spec, relevance_floor_repr. unfold SFleb, SFltb.
  rewrite (SFcompare_antisym (Prim2SF s)).
  destruct (Prim2SF s) as [sg|sg| |sg m e]; cbn [SFcompare option_map];
    try congruence.
  - destruct sg; cbn [CompOpp]; congruence.
  - destruct sg; cbn [CompOpp]; [congruence|].
    destruct (e ?= -54)%Z; cbn [CompOpp]; try congruence.
    destruct (PosDef.Pos.compare_cont Eq m 5404319552844595);
      cbn [CompOpp]; congruence.
Qed.

(** X8. A match passes the filter exactly when it has metadata and a
    score that is a number (not [NaN]) whose exact value exceeds 3/10. *)
Theorem passes_floor_iff (m : PineconeMatch.t) :
  passes_floor m = true
  <-> exists md s,
        PineconeMatch.metadata m = Some md
        /\ PineconeMatch.score m = Some s
        /\ PrimFloat.is_nan s = false
        /\ at_most_three_tenths s = false.
Proof.
  unfold passes_floor. split.
  - destruct (PineconeMatch.metadata m) as [md|]; [|discriminate].
    destruct (PineconeMatch.score m) as [s|]; cbn [or_zero];
      [|rewrite floor_not_below_zero; discriminate].
    destruct (truthy_number s) eqn:T;
      [|rewrite floor_not_below_zero; discriminate].
    intros H. exists md, s. repeat split.
    + unfold truthy_number in T. apply negb_true_iff in T.
      apply orb_false_iff in T. tauto.
    + rewrite at_most_three_tenths_leb.
      destruct (s <=? relevance_floor)%float eqn:L; [|reflexivity].
      rewrite (leb_not_ltb _ _ L) in H. discriminate.
  - intros (md & s & -> & -> & N & A). cbn [or_zero].
    assert (T : truthy_number s = true).
    { unfold truthy_number. rewrite N, orb_false_r.
      destruct (PrimFloat.is_zero s) eqn:Z; [|reflexivity].
      destruct (is_zero_repr s Z) as [sign E].
      unfold at_most_three_tenths in A. rewrite E in A. discriminate. }
    rewrite T. apply above_floor; [assumption|].
    rewrite <- at_most_three_tenths_leb. assumption.
Qed.

Lemma passes_floor_metadata (m : PineconeMatch.t) :
  passes_floor m = true -> exists md, PineconeMatch.metadata m = Some md.
Proof.
  unfold passes_floor.
  destruct (PineconeMatch.metadata m) as [md|]; [eauto | discriminate].
Qed.

(** X9. The context items are the projections of the matches that pass
    the filter, one for one and in their order, and the score of each
    exceeds the floor. *)
Theorem contextItems_survivors (ms : list PineconeMatch.t) :
  Forall2
    (fun m item =>
       exists md,
         PineconeMatch.metadata m = Some md
         /\ item = to_context_item m md)
    (filter passes_floor ms) (contextItems ms)
  /\ Forall
       (fun item =>
          (relevance_floor <? ContextItem.score item)%float = true)
       (contextItems ms).
Proof.
  induction ms as [|m ms [IH2 IH]]; simpl; [split; constructor|].
  destruct (passes_floor m) eqn:P; [|split; assumption].
  destruct (passes_floor_metadata m P) as [md E]. rewrite E.
  split; constructor; try assumption.
  - exists md; auto.
  - simpl. unfold passes_floor in P. rewrite E in P. exact P.
Qed.

Lemma other_kind_inert : inert other_kind.
Proof.
  intros m. unfold other_kind. simpl.
  destruct (passes_floor m); [|split; reflexivity].
  destruct (PineconeMatch.metadata m) as [md|]; [|discriminate].
  intros H. apply andb_true_iff in H. destruct H as [T I].
  apply negb_true_iff in T. apply negb_true_iff in I.
  unfold textResults, imageResults, is_text, is_image_with_url; simpl.
  rewrite T, I. split; reflexivity.
Qed.

(** X10. A match whose kind is neither text nor image is ignored even
    when it passes the floor: it enters neither the context string, nor
    the images, nor the sources, and the response and the calls are what
    they are without it. *)
Theorem other_kind_ignored
  (svc : Services.t) (request : Request.t) (ms : list PineconeMatch.t) :
  contextString (textResults (contextItems (without other_kind ms)))
                (imageResults (contextItems (without other_kind ms)))
  = contextString (textResults (contextItems ms))
                  (imageResults (contextItems ms))
  /\ response_images (without other_kind ms) = response_images ms
  /\ response_sources (without other_kind ms) = response_sources ms
  /\ serve (withhold other_kind svc) request = serve svc request.
Proof.
  destruct (response_lists_inert other_kind ms other_kind_inert)
    as (C & I & S).
  repeat split; try assumption.
  apply serve_withhold_inert, other_kind_inert.
Qed.

Example other_kind_sample :
  other_kind table_match = true
  /\ passes_floor table_match = true
  /\ response_sources [table_match] = []
  /\ contextString (textResults (contextItems [table_match]))
                   (imageResults (contextItems [table_match])) = [].
Proof. vm_compute. repeat split. Qed.

(** *** [uniquePapers] *)

Lemma not_in_array_spec (x : jsstring) (l : list jsstring) :
  not_in_array x l = true <-> ~ In x l.
Proof.
  unfold not_in_array. rewrite negb_true_iff.
  rewrite <- existsb_str_eqb.
  destruct (existsb (str_eqb x) l); split; congruence.
Qed.

Lemma uniquePapers_from (items : list ContextItem.t) (acc : list jsstring) :
  NoDup acc ->
  let result :=
    fold_left
      (fun acc item =>
         if not_in_array (ContextItem.source item) acc
         then acc ++ [ContextItem.source item]
         else acc)
      items acc in
  NoDup result
  /\ (forall s, In s result
                <-> In s acc \/ In s (map ContextItem.source items))
  /\ exists added, result = acc ++ added.
Proof.
  revert acc; induction items as [|item items IH]; intros acc Hacc; simpl.
  - split; [assumption|]. split; [intros s; tauto|].
    exists []. rewrite app_nil_r. reflexivity.
  - destruct (not_in_array (ContextItem.source item) acc) eqn:E.
    + apply not_in_array_spec in E.
      assert (Hacc' : NoDup (acc ++ [ContextItem.source item])).
      { apply NoDup_app; [assumption | repeat constructor; simpl; tauto|].
        intros x Hx [<-|[]]. contradiction. }
      destruct (IH _ Hacc') as (N & M & (added & A)).
      split; [assumption|]. split.
      * intros s. rewrite M, in_app_iff. simpl. tauto.
      * exists (ContextItem.source item :: added).
        rewrite A, <- app_assoc. reflexivity.
    + assert (In (ContextItem.source item) acc).
      { destruct (in_dec (list_eq_dec N.eq_dec)
                         (ContextItem.source item) acc) as [H|H];
          [assumption|].
        apply not_in_array_spec in H. congruence. }
      destruct (IH _ Hacc) as (N & M & A).
      split; [assumption|]. split; [|assumption].
      intros s. rewrite M. split; [tauto|].
      intros [H'|[<-|H']]; tauto.
Qed.

(** X11. [uniquePapers] lists every paper title of the context items
    (text, figures and other kinds alike) exactly once. *)
Theorem uniquePapers_spec (items : list ContextItem.t) :
  NoDup (uniquePapers items)
  /\ (forall title,
        In title (uniquePapers items)
        <-> In title (map ContextItem.source items))
  /\ List.length (uniquePapers items) <= List.length items.
Proof.
  destruct (uniquePapers_from items [] (NoDup_nil _)) as (N & M & _).
  fold (uniquePapers items) in N, M.
  split; [assumption|]. split.
  - intros title. rewrite M. simpl. tauto.
  - rewrite <- (length_map ContextItem.source items).
    apply NoDup_incl_length; [assumption|].
    intros s H. apply M in H. simpl in H. tauto.
Qed.

End Filter.

(** ** The images and the sources *)

Section Lists.

(** X12. The images of the response are the first figures in retrieval
    order: the display limit drops figures from the end only, and as few
    as it must. *)
Theorem response_images_prefix (ms : list PineconeMatch.t) :
  (exists dropped,
     map image_entry (imageResults (contextItems ms))
     = response_images ms ++ map image_entry dropped)
  /\ List.length (response_images ms)
     = Nat.min 4 (List.length (imageResults (contextItems ms))).
Proof.
  unfold response_images.
  change (Some 4%Z) with (Some (Z.of_nat 4)). rewrite slice_from_0.
  split.
  - exists (skipn 4 (imageResults (contextItems ms))).
    rewrite <- map_app, firstn_skipn. reflexivity.
  - rewrite length_map, length_firstn. reflexivity.
Qed.

Lemma response_sources_title_In (ms : list PineconeMatch.t)
  (title : jsstring) :
  In title (map SourceEntry.title (response_sources ms)) ->
  exists t,
    In t (textResults (contextItems ms))
    /\ ContextItem.source t = title
    /\ inherited title = false.
Proof.
  rewrite response_sources_titles. intros H. apply In_firstn in H.
  apply (Permutation_in _ (Object_keys_perm _)) in H.
  rewrite sourceMap_keys in H. apply in_map_iff in H.
  destruct H as (t & E & H).
  destruct (first_by_title_fresh _ _ _ H) as (_ & I & K).
  exists t. subst title. auto.
Qed.

Lemma count_title_absent (title : jsstring) (srcs : list SourceEntry.t) :
  ~ In title (map SourceEntry.title srcs) -> count_title title srcs = 0.
Proof.
  intros H. rewrite count_title_titles, filter_title_absent by assumption.
  reflexivity.
Qed.

(** X13. The sources are made from the text matches alone: a paper of
    which no passage survives has no source, even when one of its figures
    is among the images. *)
Theorem sources_need_a_passage (ms : list PineconeMatch.t)
  (title : jsstring) :
  ~ In title (map ContextItem.source (textResults (contextItems ms))) ->
  count_title title (response_sources ms) = 0.
Proof.
  intros H. apply count_title_absent. intros K.
  destruct (response_sources_title_In ms title K) as (t & Ht & E & _).
  apply H. apply in_map_iff. exists t. auto.
Qed.

Lemma sources_need_a_passage_witness :
  count_title other_title (response_sources figure_only_paper) = 0.
Proof.
  apply (sources_need_a_passage figure_only_paper other_title).
  vm_compute. intros [H|[]]. discriminate H.
Defined.

(** The figure of the second paper is shown, the paper is not listed. *)
Example figure_only_paper_sample :
  map ImageEntry.source (response_images figure_only_paper) = [other_title]
  /\ map SourceEntry.title (response_sources figure_only_paper)
     = [glof_title].
Proof. vm_compute. repeat split. Qed.

(** X14. A paper whose title is the name of a property of
    [Object.prototype] ("constructor", "toString", "__proto__", ...) never
    gets a source: [sourceMap[title]] reads truthy in the empty object, so
    the entry is not created. *)
Theorem inherited_title_has_no_source (ms : list PineconeMatch.t)
  (title : jsstring) :
  inherited title = true ->
  count_title title (response_sources ms) = 0.
Proof.
  intros H. apply count_title_absent. intros K.
  destruct (response_sources_title_In ms title K) as (t & _ & _ & I).
  congruence.
Qed.

Lemma inherited_title_has_no_source_witness :
  count_title (lit "constructor") (response_sources odd_titles) = 0.
Proof.
  apply (inherited_title_has_no_source odd_titles (lit "constructor")).
  reflexivity.
Defined.

(** *** The order of the sources *)

Lemma Object_keys_no_index {V : Type} (o : jsobject V) :
  (forall k, In k (map fst o) -> array_index k = None) ->
  Object_keys o = map fst o.
Proof.
  unfold Object_keys. induction (map fst o) as [|k ks IH]; [reflexivity|].
  intros H. simpl. rewrite (H k) by (simpl; auto). simpl.
  assert (H' : forall k', In k' ks -> array_index k' = None)
    by (intros; apply H; simpl; auto).
  specialize (IH H').
  destruct (flat_map _ ks) as [|x xs] eqn:F.
  - simpl in *. rewrite IH. reflexivity.
  - exfalso.
    assert (In x (flat_map
                    (fun k0 => match array_index k0 with
                               | Some n => [(n, k0)]
                               | None => []
                               end) ks)) by (rewrite F; simpl; auto).
    apply in_flat_map in H0. destruct H0 as (k' & Hk' & Hx).
    rewrite (H' k' Hk') in Hx. contradiction.
Qed.

(** Two lists with the same keys, the first drawn from the second, whose
    keys are distinct, are equal. *)
Lemma same_keys_same_list {A K : Type} (f : A -> K) (l1 l2 : list A) :
  map f l1 = map f l2 ->
  NoDup (map f l2) ->
  (forall x, In x l1 -> In x l2) ->
  l1 = l2.
Proof.
  revert l2; induction l1 as [|a l1 IH]; intros [|b l2]; simpl;
    try discriminate; [reflexivity|].
  intros E N H. inversion E as [[Eab El]]. inversion N as [|? ? Nb Nl]; subst.
  assert (a = b).
  { destruct (H a (or_introl eq_refl)) as [<-|Ha]; [reflexivity|].
    exfalso. apply Nb. rewrite <- Eab. apply in_map. assumption. }
  subst a. f_equal. apply IH; try assumption.
  intros x Hx. destruct (H x (or_intror Hx)) as [<-|Hx']; [|assumption].
  exfalso. apply Nb. rewrite <- El. apply in_map. assumption.
Qed.

Lemma no_index_title_keys (texts : list ContextItem.t) (k : jsstring) :
  no_index_title texts = true ->
  In k (map fst (sourceMap texts)) ->
  array_index k = None.
Proof.
  unfold no_index_title. rewrite forallb_forall, sourceMap_keys.
  intros H K. apply in_map_iff in K. destruct K as (t & <- & K).
  destruct (first_by_title_fresh _ _ _ K) as (_ & _ & Ht).
  specialize (H t Ht).
  destruct (array_index (ContextItem.source t)); [discriminate|reflexivity].
Qed.

(** X15. When no surviving passage has a title that is an array index,
    the sources come in the order in which their papers first occur among
    the passages, and the display limit keeps the first six papers. *)
Theorem sources_in_order_of_first_passage (ms : list PineconeMatch.t) :
  no_index_title (textResults (contextItems ms)) = true ->
  response_sources ms
  = firstn 6 (map source_entry
                  (first_by_title [] (textResults (contextItems ms)))).
Proof.
  intros H. unfold response_sources.
  change (Some 6%Z) with (Some (Z.of_nat 6)). rewrite slice_from_0.
  f_equal.
  apply (same_keys_same_list SourceEntry.title).
  - rewrite sources_titles, Object_keys_no_index, sourceMap_keys, map_map.
    + reflexivity.
    + intros k. apply no_index_title_keys. assumption.
  - rewrite map_map. apply first_by_title_NoDup.
  - intros e He. destruct (sources_entry _ _ He) as (t & Ht & ->).
    apply in_map. assumption.
Qed.

Lemma sources_in_order_of_first_passage_witness :
  response_sources seven_papers
  = firstn 6 (map source_entry
                  (first_by_title []
                     (textResults (contextItems seven_papers)))).
Proof.
  apply (sources_in_order_of_first_passage seven_papers).
  vm_compute. reflexivity.
Defined.

Lemma insert_by_index_In {X : Type} (x y : N * X) (l : list (N * X)) :
  In y (insert_by_index x l) -> y = x \/ In y l.
Proof.
  intros H.
  apply (Permutation_in _ (insert_by_index_perm x l)) in H.
  destruct H; auto.
Qed.

Lemma insert_by_index_sorted (x : N * jsstring) (l : list (N * jsstring)) :
  StronglySorted index_le l -> StronglySorted index_le (insert_by_index x l).
Proof.
  induction 1 as [|y l Hl IH Hy]; simpl; [repeat constructor|].
  destruct (fst x <=? fst y)%N eqn:E.
  - apply N.leb_le in E. constructor; [constructor; assumption|].
    constructor; [exact E|].
    rewrite Forall_forall in *. intros z Hz.
    unfold index_le in *. specialize (Hy z Hz). lia.
  - apply N.leb_gt in E. constructor; [assumption|].
    rewrite Forall_forall in *. intros z Hz.
    destruct (insert_by_index_In _ _ _ Hz) as [->|Hz'].
    + unfold index_le. lia.
    + apply Hy. assumption.
Qed.

Lemma sort_by_index_sorted (l : list (N * jsstring)) :
  StronglySorted index_le (sort_by_index l).
Proof.
  induction l as [|x l IH]; simpl; [constructor|].
  apply insert_by_index_sorted. assumption.
Qed.

Lemma tagged_index_titles (ks : list jsstring) :
  map snd
      (flat_map (fun k => match array_index k with
                          | Some n => [(n, k)]
                          | None => []
                          end) ks)
  = filter is_index_title ks.
Proof.
  unfold is_index_title.
  induction ks as [|k ks IH]; simpl; [reflexivity|].
  destruct (array_index k); simpl; rewrite IH; reflexivity.
Qed.

(** X16. In general the sources begin with the papers whose titles are
    array indices ("7", "2020", ...): all of them, each once, in
    ascending numeric order whatever their rank; the other papers follow
    in the order of their first passage. *)
Theorem sources_index_titles_first (texts : list ContextItem.t) :
  exists indexed : list (N * jsstring),
    map SourceEntry.title (sources texts)
    = map snd indexed
      ++ filter (fun k => match array_index k with
                          | Some _ => false
                          | None => true
                          end)
                (map ContextItem.source (first_by_title [] texts))
    /\ Permutation
         (map snd indexed)
         (filter is_index_title
                 (map ContextItem.source (first_by_title [] texts)))
    /\ NoDup (map snd indexed)
    /\ Forall (fun p => array_index (snd p) = Some (fst p)) indexed
    /\ StronglySorted (fun p q => (fst p <= fst q)%N) indexed.
Proof.
  rewrite sources_titles. unfold Object_keys. rewrite sourceMap_keys.
  eexists. split; [reflexivity|].
  assert (P : Permutation
                (map snd
                     (sort_by_index
                        (flat_map (fun k => match array_index k with
                                            | Some n => [(n, k)]
                                            | None => []
                                            end)
                           (map ContextItem.source
                                (first_by_title [] texts)))))
                (filter is_index_title
                        (map ContextItem.source (first_by_title [] texts)))).
  { rewrite <- tagged_index_titles.
    apply Permutation_map, sort_by_index_perm. }
  split; [exact P|]. split; [|split].
  - eapply Permutation_NoDup; [symmetry; exact P|].
    apply NoDup_filter, first_by_title_NoDup.
  - apply Forall_forall. intros p Hp.
    apply (Permutation_in _ (sort_by_index_perm _)) in Hp.
    apply in_flat_map in Hp. destruct Hp as (k & _ & Hp).
    destruct (array_index k) as [n|] eqn:E; [|contradiction].
    destruct Hp as [<-|[]]. exact E.
  - apply sort_by_index_sorted.
Qed.

(** Of the passages of [odd_titles], "10" ranks before "9"; the sources
    put "9" first, then "10", then the titles that are not indices. *)
Example sources_index_titles_sample :
  map SourceEntry.title (sources (textResults (contextItems odd_titles)))
  = [ lit "9"; lit "10"; lit "Zebra"; lit "007" ].
Proof. vm_compute. reflexivity. Qed.

(** X17. An image and a source of the same paper in one response carry
    the same [pdfFile]. *)
Theorem pdfFile_agrees (ms : list PineconeMatch.t) (img : ImageEntry.t)
  (src : SourceEntry.t) :
  In img (response_images ms) ->
  In src (response_sources ms) ->
  ImageEntry.source img = SourceEntry.title src ->
  ImageEntry.pdfFile img = SourceEntry.pdfFile src.
Proof.
  unfold response_images, response_sources.
  change (Some 4%Z) with (Some (Z.of_nat 4)).
  change (Some 6%Z) with (Some (Z.of_nat 6)).
  rewrite !slice_from_0. intros Hi Hs E.
  apply in_map_iff in Hi. destruct Hi as (item & <- & _).
  apply In_firstn in Hs. destruct (sources_entry _ _ Hs) as (t & _ & ->).
  simpl in *. rewrite E. reflexivity.
Qed.

Lemma pdfFile_agrees_witness :
  ImageEntry.pdfFile
    (image_entry
       {| ContextItem.type := lit "image";
          ContextItem.content := lit "Map of lakes.";
          ContextItem.source := glof_title;
          ContextItem.page := 7;
          ContextItem.imageUrl := Some (lit "https://img/1.png");
          ContextItem.score := 0.6%float |})
  = SourceEntry.pdfFile (source_entry passage_p5_item).
Proof.
  apply (pdfFile_agrees sample_matches); vm_compute; auto.
Defined.

End Lists.

(** ** The context string and the filename *)

Section Strings.

Lemma heading_section_not_empty (heading : jsstring) (c : code_unit)
  (h : jsstring) (b : jsstring) (blocks : list jsstring) :
  heading = c :: h -> context_section heading (b :: blocks) <> [].
Proof. intros ->. simpl. discriminate. Qed.

(** X18. The context string is empty exactly when there is neither a
    text item nor a figure; otherwise it begins with the heading of its
    first section. *)
Theorem contextString_empty_iff (texts images : list ContextItem.t) :
  contextString texts images = [] <-> texts = [] /\ images = [].
Proof.
  rewrite contextString_sections. split.
  - intros H. apply app_eq_nil in H. destruct H as [Ht Hi].
    destruct texts as [|t texts].
    + destruct images as [|i images]; [auto|].
      exfalso. revert Hi. simpl map.
      eapply heading_section_not_empty. reflexivity.
    + exfalso. revert Ht. simpl map.
      eapply heading_section_not_empty. reflexivity.
  - intros [-> ->]. reflexivity.
Qed.

Lemma is_plain_cases (c : code_unit) :
  is_plain c = true ->
  (97 <= c <= 122 \/ 65 <= c <= 90 \/ 48 <= c <= 57 \/ c = 45)%N.
Proof.
  unfold is_plain, is_lower, is_upper, is_digit, is_hyphen, in_range.
  rewrite !orb_true_iff, !andb_true_iff, !N.leb_le, N.eqb_eq. tauto.
Qed.

Lemma plain_is_kept (c : code_unit) : is_plain c = true -> is_kept c = true.
Proof.
  unfold is_plain, is_kept. intros H.
  apply orb_true_iff in H. destruct H as [H|H]; [|rewrite H; apply orb_true_r].
  apply orb_true_iff in H. destruct H as [H|H];
    [|rewrite H; rewrite !orb_true_r; reflexivity].
  rewrite H. reflexivity.
Qed.

Ltac out_of_class :=
  first
    [ apply N.eqb_neq; lia
    | apply andb_false_iff; left; apply N.leb_gt; lia
    | apply andb_false_iff; right; apply N.leb_gt; lia ].

Lemma plain_not_whitespace (c : code_unit) :
  is_plain c = true -> is_whitespace c = false.
Proof.
  intros H. apply is_plain_cases in H.
  unfold is_whitespace, in_range.
  repeat (apply orb_false_intro); out_of_class.
Qed.

Lemma plain_title_kept (s : jsstring) :
  Forall (fun c => is_plain c = true) s -> remove_special_chars s = s.
Proof.
  unfold remove_special_chars.
  induction 1 as [|c s Hc _ IH]; simpl; [reflexivity|].
  rewrite (plain_is_kept c Hc), IH. reflexivity.
Qed.

Lemma plain_title_copied (b : bool) (s : jsstring) :
  Forall (fun c => is_plain c = true) s ->
  spaces_to_underscores_from b s = s.
Proof.
  intros H. revert b. induction H as [|c s Hc _ IH]; intros b; simpl;
    [reflexivity|].
  rewrite (plain_not_whitespace c Hc), IH. reflexivity.
Qed.

(** X19. A title made of ASCII letters, digits and hyphens only, of at
    most 80 code units, is its own filename stem: the filename is the
    title followed by [.pdf]. *)
Theorem createPdfFilename_plain_title (title : jsstring) :
  Forall (fun c => is_plain c = true) title ->
  List.length title <= 80 ->
  createPdfFilename title = title ++ lit ".pdf".
Proof.
  intros H L. unfold createPdfFilename, spaces_to_underscores.
  rewrite plain_title_kept, plain_title_copied by assumption.
  rewrite substring_from_0, firstn_all2 by assumption. reflexivity.
Qed.

Lemma createPdfFilename_plain_title_witness :
  createPdfFilename (lit "GLOF-2020") = lit "GLOF-2020" ++ lit ".pdf".
Proof.
  apply (createPdfFilename_plain_title (lit "GLOF-2020")).
  - repeat constructor.
  - vm_compute. repeat constructor.
Defined.

Lemma kept_underscore_free (c : code_unit) :
  is_kept c = true -> is_whitespace c = false -> is_underscore c = false.
Proof.
  intros K W. destruct (is_underscore c) eqn:U; [|reflexivity].
  unfold is_underscore in U. apply N.eqb_eq in U. subst c.
  change (is_kept UNDERSCORE = true) in K.
  rewrite underscore_not_kept in K. discriminate.
Qed.

Lemma adjacent_underscores_cons (c : code_unit) (s : jsstring) :
  adjacent_underscores (c :: s)
  = (is_underscore c && starts_with_underscore s) || adjacent_underscores s.
Proof. destruct s; simpl; [rewrite andb_false_r|]; reflexivity. Qed.

Lemma spaces_to_underscores_from_apart (b : bool) (s : jsstring) :
  Forall (fun c => is_kept c = true) s ->
  adjacent_underscores (spaces_to_underscores_from b s) = false
  /\ (b = true ->
      starts_with_underscore (spaces_to_underscores_from b s) = false).
Proof.
  intros H. revert b. induction H as [|c s Hc _ IH]; intros b.
  - simpl. auto.
  - cbn [spaces_to_underscores_from].
    destruct (is_whitespace c) eqn:W.
    + destruct (IH true) as [A S]. destruct b; [auto|].
      split; [|discriminate].
      rewrite adjacent_underscores_cons, A, (S eq_refl), andb_false_r.
      reflexivity.
    + destruct (IH false) as [A _].
      rewrite adjacent_underscores_cons, A.
      cbn [starts_with_underscore].
      rewrite (kept_underscore_free c Hc W). auto.
Qed.

Lemma adjacent_underscores_firstn (n : nat) (s : jsstring) :
  adjacent_underscores s = false ->
  adjacent_underscores (firstn n s) = false.
Proof.
  revert n; induction s as [|c s IH]; intros [|n]; try reflexivity.
  rewrite adjacent_underscores_cons. intros H.
  apply orb_false_iff in H. destruct H as [H A].
  cbn [firstn]. rewrite adjacent_underscores_cons, (IH n A), orb_false_r.
  destruct (is_underscore c); [|reflexivity].
  simpl in H. destruct s as [|d s]; [destruct n; reflexivity|].
  simpl in H. destruct n; [reflexivity|]. simpl. exact H.
Qed.

(** X20. No two underscores follow each other in a filename stem:
    underscores of the title itself are deleted, so every underscore of
    the stem stands for one whole run of whitespace. *)
Theorem createPdfFilename_underscores_apart (title : jsstring) :
  exists stem,
    createPdfFilename title = stem ++ lit ".pdf"
    /\ adjacent_underscores stem = false.
Proof.
  exists (firstn 80 (spaces_to_underscores (remove_special_chars title))).
  split.
  - unfold createPdfFilename. rewrite substring_from_0. reflexivity.
  - apply adjacent_underscores_firstn.
    apply spaces_to_underscores_from_apart, remove_special_chars_kept.
Qed.

Example createPdfFilename_underscores_sample :
  createPdfFilename (lit "a_ _b  __  c") = lit "a_b_c.pdf".
Proof. reflexivity. Qed.

Lemma createPdfFilename_app_deleted (a b : jsstring) (c : code_unit) :
  is_kept c = false ->
  remove_special_chars (a ++ c :: b) = remove_special_chars (a ++ b).
Proof.
  intros H. unfold remove_special_chars.
  rewrite !filter_app. simpl. rewrite H. reflexivity.
Qed.

(** X21. The filename does not tell apart titles that differ by a
    deleted character (punctuation, an underscore, a non-ASCII letter):
    such titles get the same filename. *)
Theorem createPdfFilename_ignores_deleted (a b : jsstring) (c : code_unit) :
  is_kept c = false ->
  createPdfFilename (a ++ c :: b) = createPdfFilename (a ++ b).
Proof.
  intros H. unfold createPdfFilename.
  rewrite (createPdfFilename_app_deleted a b c H). reflexivity.
Qed.

Lemma createPdfFilename_ignores_deleted_witness :
  createPdfFilename (lit "Glaciers" ++ 58%N :: lit " a review")
  = createPdfFilename (lit "Glaciers" ++ lit " a review").
Proof.
  apply (createPdfFilename_ignores_deleted
           (lit "Glaciers") (lit " a review") 58%N).
  reflexivity.
Defined.

Lemma spaces_to_underscores_from_app (b : bool) (a x : jsstring) :
  spaces_to_underscores_from b (a ++ x)
  = spaces_to_underscores_from b a
    ++ spaces_to_underscores_from (in_run_after b a) x.
Proof.
  unfold in_run_after.
  revert b; induction a as [|c a IH]; intros b; simpl; [reflexivity|].
  destruct (is_whitespace c).
  - destruct b; rewrite IH; reflexivity.
  - rewrite IH. reflexivity.
Qed.

Lemma spaces_from_true_run (run : jsstring) :
  Forall (fun c => is_whitespace c = true) run ->
  spaces_to_underscores_from true run = [] /\ in_run_after true run = true.
Proof.
  unfold in_run_after.
  induction 1 as [|c run Hc _ [IH1 IH2]]; simpl; [auto|].
  rewrite Hc. auto.
Qed.

Lemma spaces_from_run (b : bool) (run : jsstring) :
  run <> [] ->
  Forall (fun c => is_whitespace c = true) run ->
  spaces_to_underscores_from b run = (if b then [] else [UNDERSCORE])
  /\ in_run_after b run = true.
Proof.
  intros Hne H. destruct H as [|c run Hc Hrun]; [congruence|].
  destruct (spaces_from_true_run run Hrun) as [E1 E2].
  unfold in_run_after in *. simpl. rewrite Hc, E1.
  destruct b; auto.
Qed.

Lemma remove_special_chars_run (run : jsstring) :
  Forall (fun c => is_whitespace c = true) run ->
  remove_special_chars run = run.
Proof.
  unfold remove_special_chars.
  induction 1 as [|c run Hc _ IH]; simpl; [reflexivity|].
  rewrite IH.
  replace (is_kept c) with true; [reflexivity|].
  unfold is_kept. rewrite Hc, !orb_true_r. reflexivity.
Qed.

Lemma remove_special_chars_app (x y : jsstring) :
  remove_special_chars (x ++ y)
  = remove_special_chars x ++ remove_special_chars y.
Proof. apply filter_app. Qed.

(** X22. The filename does not tell apart titles that differ by the
    length or the kind of a run of whitespace (one blank, two blanks, a
    tab, a no-break space): such titles get the same filename. *)
Theorem createPdfFilename_ignores_run_length (a b run run' : jsstring) :
  run <> [] -> run' <> [] ->
  Forall (fun c => is_whitespace c = true) run ->
  Forall (fun c => is_whitespace c = true) run' ->
  createPdfFilename (a ++ run ++ b) = createPdfFilename (a ++ run' ++ b).
Proof.
  intros N N' H H'. unfold createPdfFilename, spaces_to_underscores.
  rewrite !remove_special_chars_app.
  rewrite (remove_special_chars_run run H),
    (remove_special_chars_run run' H').
  rewrite !spaces_to_underscores_from_app.
  destruct (spaces_from_run (in_run_after false (remove_special_chars a))
                            run N H) as [-> E].
  destruct (spaces_from_run (in_run_after false (remove_special_chars a))
                            run' N' H') as [-> E'].
  rewrite E, E'. reflexivity.
Qed.

Lemma createPdfFilename_ignores_run_length_witness :
  createPdfFilename (lit "Glacier" ++ lit " " ++ lit "Lakes")
  = createPdfFilename (lit "Glacier" ++ [32; 9; 160]%N ++ lit "Lakes").
Proof.
  apply (createPdfFilename_ignores_run_length
           (lit "Glacier") (lit "Lakes") (lit " ") [32; 9; 160]%N).
  - discriminate.
  - discriminate.
  - repeat constructor.
  - repeat constructor.
Defined.

End Strings.

(** ** Numbers in template literals *)

Section Numbers.

Lemma decimal_negative (z : Z) :
  (z < 0)%Z -> decimal z = lit "-" ++ decimal (- z).
Proof.
  destruct z as [|p|p]; try lia. intros _. reflexivity.
Qed.

Lemma render_magnitude_safe (x : Z) :
  (0 <= x < 9007199254740992)%Z -> render_magnitude x = decimal x.
Proof.
  intros [L U].
  assert (B : (Z.log2 x + 1 <=? 53)%Z = true).
  { apply Z.leb_le. destruct (Z.eq_dec x 0) as [->|N]; [simpl; lia|].
    rewrite <- pow2_53 in U. apply Z.log2_lt_pow2 in U; lia. }
  unfold render_magnitude, to_binary64. cbn zeta. rewrite B.
  cbn beta iota. rewrite B. reflexivity.
Qed.

(** Below 2^53 in magnitude an integer is a binary64 number, and its
    rendering is its decimal notation. *)
Lemma number_to_string_safe (z : Z) :
  (- 9007199254740992 < z < 9007199254740992)%Z ->
  number_to_string z = decimal z.
Proof.
  intros [L U]. unfold number_to_string.
  destruct (z <? 0)%Z eqn:S.
  - apply Z.ltb_lt in S.
    rewrite render_magnitude_safe by lia.
    symmetry. apply decimal_negative. assumption.
  - apply Z.ltb_ge in S. apply render_magnitude_safe. lia.
Qed.

(** Beyond: the nearest binary64 number, its fewest digits, and the
    exponent form from 10^21 on. *)
Example number_to_string_sample :
  number_to_string 5 = lit "5"
  /\ number_to_string (-12) = lit "-12"
  /\ number_to_string 9007199254740993 = lit "9007199254740992"
  /\ number_to_string (2 ^ 60) = lit "1152921504606847000"
  /\ number_to_string 999999999999999934463 = lit "999999999999999900000"
  /\ number_to_string (10 ^ 21) = lit "1e+21"
  /\ number_to_string 123456789012345678901234
     = lit "1.2345678901234569e+23"
  /\ number_to_string (- 2 ^ 70) = lit "-1.1805916207174113e+21"
  /\ number_to_string (2 ^ 1024) = lit "Infinity".
Proof. vm_compute. repeat split. Qed.

(** A block of a passage whose page is 10^21. *)
Example text_block_large_page :
  text_block
    {| ContextItem.type := lit "text";
       ContextItem.content := lit "c";
       ContextItem.source := lit "T";
       ContextItem.page := 10 ^ 21;
       ContextItem.imageUrl := None;
       ContextItem.score := 0.9%float |}
  = lit "[Paper: " ++ DQUOTE ++ lit "T" ++ DQUOTE ++ lit ", Page 1e+21]"
    ++ LF ++ lit "c" ++ LF ++ LF.
Proof. vm_compute. reflexivity. Qed.

End Numbers.
